(** * BioRanges.lightweight: ranges on biological sequences

    A shallow embedding of [BioRanges/lightweight.py] and the properties
    of its four classes [Range], [Ranges], [SeqRange] and [SeqRanges].

    Python objects are records of their instance attributes, Python
    exceptions are the [Raise] results of an error monad, dictionaries
    and sets are stdpp's [gmap] and [gset]. *)

From stdpp Require Import gmap strings list fin_maps pretty.
From Stdlib Require Import ZArith Lia.

Local Open Scope string_scope.
Local Open Scope list_scope.
Local Set Warnings "-register-all".

(** ** Exceptions and the error monad *)

(** The exceptions the module can end in.  [ValueError] is the only one
    the module raises itself, always with a message; the other three are
    raised by the interpreter (an operator on [None], a subscript out of
    range, an attribute that cannot be read or assigned). *)
Inductive exn : Type :=
| ValueError (msg : string)
| TypeError
| IndexError
| AttributeError.

Inductive result (A : Type) : Type :=
| Ok (a : A)
| Raise (e : exn).

Arguments Ok {A} a.
Arguments Raise {A} e.

Definition bind {A B : Type} (c : result A) (k : A -> result B) : result B :=
  match c with
  | Ok a => k a
  | Raise e => Raise e
  end.

Notation "'let*' x ':=' c 'in' k" := (bind c (fun x => k))
  (at level 10, x name, c at level 100, k at level 200).

Definition is_ValueError {A : Type} (r : result A) : Prop :=
  match r with
  | Raise (ValueError _) => True
  | _ => False
  end.

Definition succeeds {A : Type} (r : result A) : Prop :=
  match r with
  | Ok _ => True
  | Raise _ => False
  end.

(** ** The interpreter *)

(** The module runs under Python 2 (its [__repr__] methods subscript the
    result of [map]).  The one place where the language version changes
    what the classes do is an ordering comparison with [None]: Python 2
    orders [None] below every number, Python 3 raises [TypeError]. *)
Inductive python : Type := Python2 | Python3.

(** [a > b] on values that are an integer or [None]. *)
Definition py_gt (py : python) (a b : option Z) : result bool :=
  match a, b with
  | Some x, Some y => Ok (y <? x)%Z
  | _, _ =>
      match py with
      | Python3 => Raise TypeError
      | Python2 =>
          Ok match a, b with
             | Some _, None => true
             | _, _ => false
             end
      end
  end.

(** [a - b] and [a + b]: an operand that is [None] is a [TypeError]. *)
Definition py_sub (a b : option Z) : result Z :=
  match a, b with
  | Some x, Some y => Ok (x - y)%Z
  | _, _ => Raise TypeError
  end.

Definition py_add (a b : option Z) : result Z :=
  match a, b with
  | Some x, Some y => Ok (x + y)%Z
  | _, _ => Raise TypeError
  end.

(** [l[i]]: [None] cannot be subscripted, and a list only within its
    length. *)
Definition subscript {A : Type} (l : option (list A)) (i : nat) : result A :=
  match l with
  | None => Raise TypeError
  | Some xs =>
      match xs !! i with
      | Some x => Ok x
      | None => Raise IndexError
      end
  end.

(** [for i in idx: st = body(i, st)], stopping at the first exception. *)
Fixpoint for_each {S : Type} (body : nat -> S -> result S) (idx : list nat)
    (st : S) : result S :=
  match idx with
  | [] => Ok st
  | i :: rest => let* st' := body i st in for_each body rest st'
  end.

(** [range(n)] *)
Definition range_ (n : nat) : list nat := seq 0 n.

(** A list argument whose elements may be of any type: only its length
    is ever looked at. *)
Record pylist : Type := PyL { elt : Type; items : list elt }.

Arguments PyL {elt} items.

Definition len (l : pylist) : nat := length (items l).

(** ** Module constants *)

Definition STRAND_OPTIONS : list string := ["+"; "-"; "*"].

Definition NUM_RANGES_DISPLAY : nat := 10.

(** ** verify_arg_length *)

Definition verify_arg_length (msg : string) (args : list (option pylist))
    : result nat :=
  (* set([len(x) for x in args if x is not None]) *)
  let arg_lens : gset nat := list_to_set (omap (fmap len) args) in
  if bool_decide (1 < size arg_lens) then Raise (ValueError msg)
  else
    (* list(arg_lens)[0] *)
    match elements arg_lens with
    | n :: _ => Ok n
    | [] => Raise IndexError
    end.

(** ** Range *)

Record Range : Type := mkRange {
  start : Z;
  end_ : Z;
  width : Z;
  name : option string
}.

(** [Counter(xs)[None]] *)
Definition Counter_None (xs : list (option Z)) : nat :=
  length (filter (fun x => x = None) xs).

Definition Range_too_few : string :=
  "too few arguments for Range(): need two of [start, end, width]".

Definition Range_negative : string :=
  "negative range widths not allowed (end > start and width >= 0)".

(** [Range.__init__(self, start=None, end=None, width=None, name=None)] *)
Definition Range_init (py : python) (start end_ width : option Z)
    (name : option string) : result Range :=
  if bool_decide (2 < Counter_None [start; end_; width])
  then Raise (ValueError Range_too_few)
  else
    let* gt := py_gt py start end_ in
    if gt || match width with Some w => (w <? 0)%Z | None => false end
    then Raise (ValueError Range_negative)
    else
      let* start :=
        match start with None => py_sub end_ width | Some s => Ok s end in
      let* end_ :=
        match end_ with None => py_add (Some start) width | Some e => Ok e end in
      let* width :=
        match width with None => py_sub (Some end_) (Some start) | Some w => Ok w end in
      Ok (mkRange start end_ width name).

(** ** Ranges *)

Record Ranges : Type := mkRanges {
  Ranges_ranges : list Range  (* self._ranges *)
}.

Definition Ranges_mismatch : string :=
  "list of starts, ends, widths, and names must be of the same length".

(** [Ranges.__init__(self, starts=None, ends=None, widths=None, names=None)] *)
Definition Ranges_init (py : python) (starts ends widths : option (list Z))
    (names : option (list string)) : result Ranges :=
  let args := [PyL <$> starts; PyL <$> ends; PyL <$> widths; PyL <$> names] in
  let* arg_len := verify_arg_length Ranges_mismatch args in
  let* _ranges :=
    for_each (fun i _ranges =>
      let* widths_i :=
        match widths with
        | Some _ => let* w := subscript widths i in Ok (Some w)
        | None => Ok None
        end in
      let* names_i :=
        match names with
        | Some _ => let* n := subscript names i in Ok (Some n)
        | None => Ok None
        end in
      let* s := subscript starts i in
      let* e := subscript ends i in
      let* r := Range_init py (Some s) (Some e) widths_i names_i in
      Ok (_ranges ++ [r])) (range_ arg_len) [] in
  Ok (mkRanges _ranges).

(** [Ranges.__len__] *)
Definition Ranges_len (self : Ranges) : nat := length (Ranges_ranges self).

(** The properties [Ranges.start], [Ranges.end] and [Ranges.width] *)
Definition Ranges_start (self : Ranges) : list Z := map start (Ranges_ranges self).

Definition Ranges_end (self : Ranges) : list Z := map end_ (Ranges_ranges self).

Definition Ranges_width (self : Ranges) : list Z := map width (Ranges_ranges self).

Definition overlaps_unsupported : string :=
  "lightweight Ranges objects do not the support overlap() method".

(** [Ranges.overlaps(self)] *)
Definition Ranges_overlaps (self : Ranges) : result bool :=
  Raise (ValueError overlaps_unsupported).

(** ** SeqRange *)

(** The instance dictionary of a [SeqRange]: the four attributes
    [__init__] assigns, each absent until it has been assigned. *)
Record SeqRange : Type := mkSeqRange {
  range : option Range;
  seqname : option string;
  strand : option string;
  data : option (gmap string Z)
}.

Definition SeqRange_new : SeqRange := mkSeqRange None None None None.

(** The names the class body binds to [@property] with a getter only.
    A property is a data descriptor: it is found on the class before the
    instance dictionary is looked at, for reading and for assignment. *)
Definition SeqRange_properties : list string := ["start"; "strand"; "end"; "width"].

(** [self.<attr> = v] on an instance of a class with the given
    properties; [store] writes the instance dictionary. *)
Definition setattr {S : Type} (properties : list string) (attr : string)
    (store : S -> S) (self : S) : result S :=
  if bool_decide (attr ∈ properties) then Raise AttributeError
  else Ok (store self).

(** Reading an attribute out of the instance dictionary. *)
Definition getattr {A : Type} (slot : option A) : result A :=
  match slot with
  | Some a => Ok a
  | None => Raise AttributeError
  end.

(** The values an attribute of a [Range] can hold. *)
Inductive pyval : Type :=
| VNone
| VInt (z : Z)
| VStr (s : string).

#[global] Instance pyval_eq_dec : EqDecision pyval.
Proof. solve_decision. Defined.

(** [r.<attr>] on a [Range]: the class has no properties and
    [Range.__init__] assigns exactly four attributes. *)
Definition Range_getattr (r : Range) (attr : string) : result pyval :=
  if String.eqb attr "start" then Ok (VInt (start r))
  else if String.eqb attr "end" then Ok (VInt (end_ r))
  else if String.eqb attr "width" then Ok (VInt (width r))
  else if String.eqb attr "name" then
    Ok match name r with Some s => VStr s | None => VNone end
  else Raise AttributeError.

Definition SeqRange_bad_strand : string :=
  "strand must be either: " +:+ String.concat ", " STRAND_OPTIONS.

(** The dictionary [dict()] evaluated once for the default of [data]. *)
Definition SeqRange_default_data : gmap string Z := ∅.

(** Writing one entry of the instance dictionary. *)
Definition store_range (v : Range) (o : SeqRange) : SeqRange :=
  mkSeqRange (Some v) (seqname o) (strand o) (data o).

Definition store_seqname (v : string) (o : SeqRange) : SeqRange :=
  mkSeqRange (range o) (Some v) (strand o) (data o).

Definition store_strand (v : string) (o : SeqRange) : SeqRange :=
  mkSeqRange (range o) (seqname o) (Some v) (data o).

Definition store_data (v : gmap string Z) (o : SeqRange) : SeqRange :=
  mkSeqRange (range o) (seqname o) (strand o) (Some v).

(** [SeqRange.__init__(self, range, seqname, strand, data=dict())];
    [data = None] stands for an omitted argument. *)
Definition SeqRange_init (range : Range) (seqname strand : string)
    (data : option (gmap string Z)) : result SeqRange :=
  let data := default SeqRange_default_data data in
  let self := SeqRange_new in
  let* self := setattr SeqRange_properties "range" (store_range range) self in
  let* self := setattr SeqRange_properties "seqname" (store_seqname seqname) self in
  if bool_decide (strand ∉ STRAND_OPTIONS)
  then Raise (ValueError SeqRange_bad_strand)
  else
    let* self := setattr SeqRange_properties "strand" (store_strand strand) self in
    let* self := setattr SeqRange_properties "data" (store_data data) self in
    Ok self.

(** ** SeqRanges *)

Record SeqRanges : Type := mkSeqRanges {
  SeqRanges_ranges : list SeqRange;  (* self._ranges *)
  seqlengths : gmap string Z
}.

(** ** Dynamically typed arguments *)

(** The objects a caller can hand to [overlaps] and [append], which look
    at the class of what they are given. *)
Inductive pyobj : Type :=
| PyRange (r : Range)
| PySeqRange (s : SeqRange)
| PySeqRanges (c : SeqRanges)
| PyList (l : list pyobj)
| PyNone
| PyInt (z : Z)
| PyStr (s : string).

(** [o.__class__.__name__] *)
Definition class_name (o : pyobj) : string :=
  match o with
  | PyRange _ => "Range"
  | PySeqRange _ => "SeqRange"
  | PySeqRanges _ => "SeqRanges"
  | PyList _ => "list"
  | PyNone => "NoneType"
  | PyInt _ => "int"
  | PyStr _ => "str"
  end.

Definition Range_overlaps_other : string :=
  "overlaps() method requires another Range object".

(** [Range.overlaps(self, other)] *)
Definition Range_overlaps (self : Range) (other : pyobj) : result bool :=
  if negb (String.eqb (class_name other) "Range")
  then Raise (ValueError Range_overlaps_other)
  else
    match other with
    | PyRange other => Ok ((start other <=? end_ self)%Z && (start self <=? end_ other)%Z)
    | _ => Raise AttributeError
    end.

(** The property [SeqRange.strand]: [return self.range.strand] *)
Definition SeqRange_strand (self : SeqRange) : result pyval :=
  let* r := getattr (range self) in
  Range_getattr r "strand".

(** The properties [SeqRange.start], [SeqRange.end] and [SeqRange.width] *)
Definition SeqRange_start (self : SeqRange) : result pyval :=
  let* r := getattr (range self) in
  Range_getattr r "start".

Definition SeqRange_end (self : SeqRange) : result pyval :=
  let* r := getattr (range self) in
  Range_getattr r "end".

Definition SeqRange_width (self : SeqRange) : result pyval :=
  let* r := getattr (range self) in
  Range_getattr r "width".

(** [SeqRange.overlaps(self, other)], [other] an instance of [SeqRange] *)
Definition SeqRange_overlaps (self other : SeqRange) : result bool :=
  (* self.seqname != other.seqname or self.strand != other.strand *)
  let* differ :=
    let* n1 := getattr (seqname self) in
    let* n2 := getattr (seqname other) in
    if negb (String.eqb n1 n2) then Ok true
    else
      let* s1 := SeqRange_strand self in
      let* s2 := SeqRange_strand other in
      Ok (negb (bool_decide (s1 = s2))) in
  if differ then Ok false
  else
    let* r := getattr (range self) in
    Range_overlaps r (PySeqRange other).

Definition SeqRanges_mismatch : string :=
  "list of ranges, strands, seqnames, and data_list must be of the same length".

(** [SeqRanges.__init__(self, ranges, strands, seqnames, seqlengths=dict(),
    data_list=None)]; a caller that omits [seqlengths] passes the
    dictionary of the default. *)
Definition SeqRanges_init (ranges : option (list Range))
    (strands seqnames : option (list string)) (seqlengths : gmap string Z)
    (data_list : option (list (gmap string Z))) : result SeqRanges :=
  let args := [PyL <$> ranges; PyL <$> strands; PyL <$> seqnames; PyL <$> data_list] in
  let not_none_args := filter (fun a => a <> None) args in
  let* arg_len := verify_arg_length SeqRanges_mismatch not_none_args in
  let* _ranges :=
    for_each (fun i _ranges =>
      let* rng := subscript ranges i in
      match data_list with
      | Some _ =>
          let* strands_i := subscript strands i in
          let* seqnames_i := subscript seqnames i in
          let* data_i := subscript data_list i in
          let* sr := SeqRange_init rng strands_i seqnames_i (Some data_i) in
          Ok (_ranges ++ [sr])
      | None =>
          let* strands_i := subscript strands i in
          let* seqnames_i := subscript seqnames i in
          let* sr := SeqRange_init rng strands_i seqnames_i None in
          Ok (_ranges ++ [sr])
      end) (range_ arg_len) [] in
  Ok (mkSeqRanges _ranges seqlengths).

Definition append_bad_list : string :=
  "append() method can only handle lists where each element is a SeqRange".

Definition append_bad_class : string :=
  "append() method can only objects of class list, SeqRange, and SeqRanges".

(** [SeqRanges.append(self, other)]: the state of [self] afterwards *)
Definition SeqRanges_append (self : SeqRanges) (other : pyobj) : result SeqRanges :=
  if String.eqb (class_name other) "SeqRange" then
    match other with
    | PySeqRange sr =>
        (* self._ranges.append(other) *)
        Ok (mkSeqRanges (SeqRanges_ranges self ++ [sr]) (seqlengths self))
    | _ => Raise AttributeError
    end
  else if String.eqb (class_name other) "SeqRanges" then
    match other with
    | PySeqRanges c =>
        (* self._ranges.extend(other._ranges)
           self.seqlengths.update(other.seqlengths) *)
        Ok (mkSeqRanges (SeqRanges_ranges self ++ SeqRanges_ranges c)
              (seqlengths c ∪ seqlengths self))
    | _ => Raise AttributeError
    end
  else if String.eqb (class_name other) "list" then
    match other with
    | PyList l =>
        let class_ok := map (fun x => String.eqb (class_name x) "SeqRange") l in
        if negb (forallb id class_ok) then Raise (ValueError append_bad_list)
        else
          Ok (mkSeqRanges
                (foldl (fun _ranges seqrange =>
                          match seqrange with
                          | PySeqRange sr => _ranges ++ [sr]
                          | _ => _ranges
                          end) (SeqRanges_ranges self) l)
                (seqlengths self))
    | _ => Raise TypeError
    end
  else Raise (ValueError append_bad_class).

(** [SeqRanges.__len__] *)
Definition SeqRanges_len (self : SeqRanges) : nat := length (SeqRanges_ranges self).

(** [SeqRanges.overlaps(self)] *)
Definition SeqRanges_overlaps (self : SeqRanges) : result bool :=
  Raise (ValueError overlaps_unsupported).

(** ** Indexing, slicing and the remaining methods *)

(** The position a list of length [n] gives to the integer index [i]:
    a negative index counts from the end, and a position outside the
    list is an [IndexError]. *)
Definition py_index (n : nat) (i : Z) : result nat :=
  let j := if (i <? 0)%Z then (i + Z.of_nat n)%Z else i in
  if (j <? 0)%Z || (Z.of_nat n <=? j)%Z then Raise IndexError
  else Ok (Z.to_nat j).

(** [l[i]], [l[i] = x] and [del l[i]] on a list, [i] an integer *)
Definition list_getitem {A : Type} (l : list A) (i : Z) : result A :=
  let* j := py_index (length l) i in
  match l !! j with
  | Some x => Ok x
  | None => Raise IndexError
  end.

Definition list_setitem {A : Type} (l : list A) (i : Z) (x : A) : result (list A) :=
  let* j := py_index (length l) i in
  Ok (<[j := x]> l).

Definition list_delitem {A : Type} (l : list A) (i : Z) : result (list A) :=
  let* j := py_index (length l) i in
  Ok (delete j l).

(** A bound of the slice [l[a:b]]: counted from the end when negative,
    then brought into [0 .. len(l)]. *)
Definition slice_bound (n : nat) (i : Z) : nat :=
  let j := if (i <? 0)%Z then (i + Z.of_nat n)%Z else i in
  if (j <? 0)%Z then 0
  else if (Z.of_nat n <? j)%Z then n
  else Z.to_nat j.

(** [l[a:b]] *)
Definition py_slice {A : Type} (l : list A) (a b : Z) : list A :=
  let lower := slice_bound (length l) a in
  let upper := slice_bound (length l) b in
  take (upper - lower) (drop lower l).

(** [[f(x) for x in xs]], stopping at the first exception. *)
Fixpoint comprehension {A B : Type} (f : A -> result B) (xs : list A)
    : result (list B) :=
  match xs with
  | [] => Ok []
  | x :: rest =>
      let* y := f x in
      let* ys := comprehension f rest in
      Ok (y :: ys)
  end.

(** [Ranges.__getitem__], [Ranges.__setitem__] and [Ranges.__delitem__];
    the value assigned is taken to be a [Range]. *)
Definition Ranges_getitem (self : Ranges) (i : Z) : result Range :=
  list_getitem (Ranges_ranges self) i.

Definition Ranges_setitem (self : Ranges) (i : Z) (range : Range) : result Ranges :=
  let* _ranges := list_setitem (Ranges_ranges self) i range in
  Ok (mkRanges _ranges).

Definition Ranges_delitem (self : Ranges) (i : Z) : result Ranges :=
  let* _ranges := list_delitem (Ranges_ranges self) i in
  Ok (mkRanges _ranges).

(** [SeqRange.getseq(self, seq)], [seq] a string or any other sequence *)
Definition SeqRange_getseq {A : Type} (self : SeqRange) (seq : list A)
    : result (list A) :=
  let* r1 := getattr (range self) in
  let* r2 := getattr (range self) in
  Ok (py_slice seq (start r1) (end_ r2)).

Definition setitem_bad_class : string :=
  "assignment can only handle SeqRange objects".

(** [SeqRanges.__setitem__(self, i, seqrange)] *)
Definition SeqRanges_setitem (self : SeqRanges) (i : Z) (seqrange : pyobj)
    : result SeqRanges :=
  if negb (String.eqb (class_name seqrange) "SeqRange")
  then Raise (ValueError setitem_bad_class)
  else
    match seqrange with
    | PySeqRange sr =>
        let* _ranges := list_setitem (SeqRanges_ranges self) i sr in
        Ok (mkSeqRanges _ranges (seqlengths self))
    | _ => Raise AttributeError
    end.

(** [SeqRanges.__getitem__] and [SeqRanges.__delitem__] *)
Definition SeqRanges_getitem (self : SeqRanges) (i : Z) : result SeqRange :=
  list_getitem (SeqRanges_ranges self) i.

Definition SeqRanges_delitem (self : SeqRanges) (i : Z) : result SeqRanges :=
  let* _ranges := list_delitem (SeqRanges_ranges self) i in
  Ok (mkSeqRanges _ranges (seqlengths self)).

(** The properties [SeqRanges.start], [SeqRanges.end], [SeqRanges.width]
    and [SeqRanges.strand]: [[r.range.<attr> for r in self._ranges]] *)
Definition SeqRanges_attr (attr : string) (self : SeqRanges) : result (list pyval) :=
  comprehension (fun r => let* rng := getattr (range r) in Range_getattr rng attr)
    (SeqRanges_ranges self).

Definition SeqRanges_start : SeqRanges -> result (list pyval) := SeqRanges_attr "start".

Definition SeqRanges_end : SeqRanges -> result (list pyval) := SeqRanges_attr "end".

Definition SeqRanges_width : SeqRanges -> result (list pyval) := SeqRanges_attr "width".

Definition SeqRanges_strand : SeqRanges -> result (list pyval) := SeqRanges_attr "strand".

(** The range [Ranges.__init__] builds for position [i]. *)
Definition Ranges_entry (py : python) (starts ends widths : option (list Z))
    (names : option (list string)) (i : nat) : result Range :=
  let* widths_i :=
    match widths with
    | Some _ => let* w := subscript widths i in Ok (Some w)
    | None => Ok None
    end in
  let* names_i :=
    match names with
    | Some _ => let* n := subscript names i in Ok (Some n)
    | None => Ok None
    end in
  let* s := subscript starts i in
  let* e := subscript ends i in
  Range_init py (Some s) (Some e) widths_i names_i.

(** ** Textual representations *)

(** [str(x)] on the values of an attribute; an integer prints in
    decimal, as [%d] prints it. *)
Definition py_str (v : pyval) : string :=
  match v with
  | VNone => "None"
  | VInt z => pretty z
  | VStr s => s
  end.

Notation "'let*' ' p ':=' c 'in' k" :=
  (bind c (fun x => match x with p => k end))
  (at level 10, p pattern, c at level 100, k at level 200).

(** [s * n]; a count below 0 gives the empty string, as 0 does. *)
Fixpoint str_mul (s : string) (n : nat) : string :=
  match n with
  | 0 => ""
  | S k => s +:+ str_mul s k
  end.

Definition newline : string := String (Ascii.ascii_of_nat 10) "".

(** [for x in xs: st = body(x, st)], stopping at the first exception. *)
Fixpoint for_in {X S : Type} (body : X -> S -> result S) (xs : list X)
    (st : S) : result S :=
  match xs with
  | [] => Ok st
  | x :: rest => let* st' := body x st in for_in body rest st'
  end.

(** [enumerate(l)] *)
Definition enumerate {A : Type} (l : list A) : list (nat * A) :=
  zip (seq 0 (length l)) l.

(** [Range.__repr__] *)
Definition Range_repr (self : Range) : string :=
  match name self with
  | Some n =>
      "Range '" +:+ n +:+ "' over [" +:+ pretty (start self) +:+ ", "
        +:+ pretty (end_ self) +:+ "]"
  | None =>
      "Range over [" +:+ pretty (start self) +:+ ", " +:+ pretty (end_ self) +:+ "]"
  end.

(** [[max((len(this_row[j]), max_col_width[j])) for j in ncols]] *)
Definition widen (ncols : list nat) (this_row : list string)
    (max_col_width : list nat) : result (list nat) :=
  comprehension (fun j =>
                   let* col := subscript (Some this_row) j in
                   let* m := subscript (Some max_col_width) j in
                   Ok (Nat.max (String.length col) m)) ncols.

(** The line of one row: the columns right-aligned to [max_col_width]
    and separated by one space. *)
Definition format_row (max_col_width : list nat) (row : list string)
    : result string :=
  for_in (fun '(i, col) tmp_line =>
            let tmp_line := if Nat.ltb 0 i then tmp_line +:+ " " else tmp_line in
            let* m := subscript (Some max_col_width) i in
            Ok (tmp_line +:+ (str_mul " " (m - String.length col) +:+ col)))
    (enumerate row) "".

(** The loop over [rows] that ends both collection [__repr__]. *)
Definition format_rows (max_col_width : list nat) (rows : list (list string))
    (lines : list string) : result (list string) :=
  for_in (fun row lines =>
            let* tmp_line := format_row max_col_width row in
            Ok (lines ++ [tmp_line])) rows lines.

(** The list [lines] that [Ranges.__repr__] joins, under Python 2,
    where [map] gives a list. *)
Definition Ranges_repr_lines (self : Ranges) : result (list string) :=
  let lines := ["Ranges with " +:+ pretty (Z.of_nat (Ranges_len self)) +:+ " ranges"] in
  let header := ["start"; "end"; "width"; "name"] in
  let rows := [header] in
  let ncols := range_ (length header) in
  let max_col_width := map String.length header in
  let* '(max_col_width, rows) :=
    for_in (fun rng '(max_col_width, rows) =>
              let this_row :=
                map py_str [VInt (start rng); VInt (end_ rng); VInt (width rng);
                            match name rng with Some n => VStr n | None => VNone end] in
              let* max_col_width := widen ncols this_row max_col_width in
              Ok (max_col_width, rows ++ [this_row]))
      (take NUM_RANGES_DISPLAY (Ranges_ranges self)) (max_col_width, rows) in
  format_rows max_col_width rows lines.

(** [Ranges.__repr__] *)
Definition Ranges_repr (self : Ranges) : result string :=
  let* lines := Ranges_repr_lines self in
  Ok (String.concat newline lines).

(** [SeqRange.__repr__] *)
Definition SeqRange_repr (self : SeqRange) : result string :=
  let* n := getattr (seqname self) in
  let* st := SeqRange_strand self in
  let* r1 := getattr (range self) in
  let* r2 := getattr (range self) in
  let* d := getattr (data self) in
  Ok ("SeqRange on '" +:+ n +:+ "', strand '" +:+ py_str st +:+ "' at ["
        +:+ pretty (start r1) +:+ ", " +:+ pretty (end_ r2) +:+ "], "
        +:+ pretty (Z.of_nat (size d)) +:+ " data keys").

(** The list [lines] that [SeqRanges.__repr__] joins. *)
Definition SeqRanges_repr_lines (self : SeqRanges) : result (list string) :=
  let lines := ["SeqRanges with " +:+ pretty (Z.of_nat (SeqRanges_len self)) +:+ " ranges"] in
  let header := ["seqnames"; "ranges"; "strand"] in
  let rows := [header] in
  let ncols := range_ (length header) in
  let max_col_width := map String.length header in
  let* '(max_col_width, rows) :=
    for_in (fun seqrange '(max_col_width, rows) =>
              let* rng := getattr (range seqrange) in
              let* n := getattr (seqname seqrange) in
              let* st := SeqRange_strand seqrange in
              let this_row :=
                [n; "[" +:+ pretty (start rng) +:+ ", " +:+ pretty (end_ rng) +:+ "]";
                 py_str st] in
              let* max_col_width := widen ncols this_row max_col_width in
              Ok (max_col_width, rows ++ [this_row]))
      (take NUM_RANGES_DISPLAY (SeqRanges_ranges self)) (max_col_width, rows) in
  format_rows max_col_width rows lines.

(** [SeqRanges.__repr__] *)
Definition SeqRanges_repr (self : SeqRanges) : result string :=
  let* lines := SeqRanges_repr_lines self in
  Ok (String.concat newline lines).

(** ** Notions used in the properties of the summaries *)

(** A row fits the column widths when it has as many columns and none
    is wider than its width. *)
Definition fits (max_col_width : list nat) (row : list string) : Prop :=
  Forall2 (fun col m => String.length col <= m) row max_col_width.

(** The row [Ranges.__repr__] makes of one range. *)
Definition Ranges_row (rng : Range) : list string :=
  map py_str [VInt (start rng); VInt (end_ rng); VInt (width rng);
              match name rng with Some n => VStr n | None => VNone end].

(** A column padded on the left to the width [m]. *)
Definition right_align (m : nat) (col : string) : string :=
  str_mul " " (m - String.length col) +:+ col.

(** A row as a line: its columns, each right-aligned to the width of
    its column, with one space between them. *)
Definition aligned_line (widths : list nat) (row : list string) : string :=
  String.concat " " (zip_with right_align widths row).

(** The widths of the [ncols] columns of a table: for every column the
    length of its longest entry. *)
Definition column_widths (table : list (list string)) (ncols : nat) : list nat :=
  map (fun j => max_list (map (fun row => String.length (default "" (row !! j))) table))
    (seq 0 ncols).

(** A string in which the character [c] does not occur. *)
Fixpoint avoids (c : Ascii.ascii) (s : string) : Prop :=
  match s with
  | EmptyString => True
  | String a rest => a <> c /\ avoids c rest
  end.

(** * Properties *)

(** ** The error monad *)

Lemma bind_Ok {A B : Type} (c : result A) (k : A -> result B) (b : B) :
  bind c k = Ok b -> exists a, c = Ok a /\ k a = Ok b.
Proof. destruct c as [a|e]; simpl; [eauto | discriminate]. Qed.

Lemma bind_Raise {A B : Type} (c : result A) (k : A -> result B) :
  (forall a, ~ succeeds (k a)) -> ~ succeeds (bind c k).
Proof. intros Hk. destruct c as [a|e]; simpl; [apply Hk | tauto]. Qed.

Lemma bind_Raise_here {A B : Type} (c : result A) (k : A -> result B) :
  ~ succeeds c -> ~ succeeds (bind c k).
Proof. destruct c as [a|e]; simpl; tauto. Qed.

Lemma succeeds_Ok {A : Type} (r : result A) :
  succeeds r <-> exists a, r = Ok a.
Proof.
  destruct r as [a|e]; simpl; split; eauto; try tauto.
  intros [a Ha]. discriminate.
Qed.

(** ** verify_arg_length *)

(** Lists that all have the one length [n], at least one of them given:
    the length is returned. *)
Lemma verify_arg_length_same (msg : string) (args : list (option pylist)) (n : nat) :
  omap (fmap len) args <> [] ->
  Forall (eq n) (omap (fmap len) args) ->
  verify_arg_length msg args = Ok n.
Proof.
  unfold verify_arg_length. generalize (omap (fmap len) args). intros lens Hne Hall.
  assert (Hset : (list_to_set lens : gset nat) = {[ n ]}).
  { apply set_eq. intros x. rewrite elem_of_list_to_set, elem_of_singleton.
    split.
    - intros Hx. rewrite Forall_forall in Hall. symmetry. by apply Hall.
    - intros ->. destruct lens as [|m lens]; [done|].
      apply Forall_cons in Hall as [-> _]. left. }
  rewrite Hset, size_singleton, elements_singleton.
  rewrite bool_decide_eq_false_2 by lia. done.
Qed.

(** No list given at all: the set of lengths is empty and its first
    element is read all the same. *)
Lemma verify_arg_length_none (msg : string) (args : list (option pylist)) :
  omap (fmap len) args = [] ->
  verify_arg_length msg args = Raise IndexError.
Proof.
  unfold verify_arg_length. intros ->.
  change (list_to_set []) with (∅ : gset nat). cbv zeta.
  rewrite size_empty, elements_empty.
  rewrite bool_decide_eq_false_2 by lia. done.
Qed.

(** Two different lengths are refused with the caller's message. *)
Lemma verify_arg_length_mismatch (msg : string) (args : list (option pylist)) (n m : nat) :
  n ∈ omap (fmap len) args -> m ∈ omap (fmap len) args -> n <> m ->
  verify_arg_length msg args = Raise (ValueError msg).
Proof.
  unfold verify_arg_length. generalize (omap (fmap len) args). intros lens Hn Hm Hnm.
  rewrite bool_decide_eq_true_2; [done|].
  assert (Hsub : ({[ n; m ]} : gset nat) ⊆ list_to_set lens).
  { intros x. rewrite elem_of_union, !elem_of_singleton, elem_of_list_to_set.
    by intros [-> | ->]. }
  apply subseteq_size in Hsub.
  rewrite size_union in Hsub by set_solver.
  rewrite !size_singleton in Hsub. lia.
Qed.

(** The three outcomes of [verify_arg_length]. *)
Lemma verify_arg_length_cases (msg : string) (args : list (option pylist)) :
  let lens := omap (fmap len) args in
  match verify_arg_length msg args with
  | Ok n => lens <> [] /\ Forall (eq n) lens
  | Raise e =>
      (e = IndexError /\ lens = []) \/
      (e = ValueError msg /\ exists n m, n ∈ lens /\ m ∈ lens /\ n <> m)
  end.
Proof.
  intros lens. destruct lens as [|n rest] eqn:Hlens.
  - rewrite verify_arg_length_none by done. by left.
  - destruct (decide (Forall (eq n) rest)) as [Hall|Hnot].
    + rewrite (verify_arg_length_same _ _ n).
      * split; [done|]. by constructor.
      * unfold lens in Hlens. by rewrite Hlens.
      * unfold lens in Hlens. rewrite Hlens. by constructor.
    + apply not_Forall_Exists in Hnot; [|apply _].
      apply Exists_exists in Hnot as (m & Hm & Hnm).
      rewrite (verify_arg_length_mismatch _ _ n m).
      * right. split; [done|]. exists n, m. repeat split; [left | by right | done].
      * unfold lens in Hlens. rewrite Hlens. left.
      * unfold lens in Hlens. rewrite Hlens. by right.
      * done.
Qed.

(** ** Range *)

(** What [Range.__init__] does under Python 2, by which arguments are
    given. *)
Lemma Range_init_py2_cases (s e w : option Z) (n : option string) :
  Range_init Python2 s e w n =
  match s, e, w with
  | None, None, None => Raise (ValueError Range_too_few)
  | Some _, None, _ => Raise (ValueError Range_negative)
  | None, Some _, None => Raise TypeError
  | None, None, Some w =>
      if (w <? 0)%Z then Raise (ValueError Range_negative) else Raise TypeError
  | Some s, Some e, None =>
      if (e <? s)%Z then Raise (ValueError Range_negative)
      else Ok (mkRange s e (e - s) n)
  | None, Some e, Some w =>
      if (w <? 0)%Z then Raise (ValueError Range_negative)
      else Ok (mkRange (e - w) e w n)
  | Some s, Some e, Some w =>
      if (e <? s)%Z || (w <? 0)%Z then Raise (ValueError Range_negative)
      else Ok (mkRange s e w n)
  end.
Proof.
  destruct s as [s|], e as [e|], w as [w|]; unfold Range_init; simpl;
    try reflexivity;
    repeat match goal with
           | |- context [(?a <? ?b)%Z] => destruct (a <? b)%Z; simpl
           end; reflexivity.
Qed.

(** Both bounds given: the two interpreters agree. *)
Lemma Range_init_bounds (py : python) (s e : Z) (w : option Z) (n : option string) :
  Range_init py (Some s) (Some e) w n = Range_init Python2 (Some s) (Some e) w n.
Proof. destruct py; reflexivity. Qed.

(** A start and an end with [start <= end] give the range over them,
    of width [end - start]. *)
Lemma Range_init_start_end (py : python) (s e : Z) (n : option string) :
  (s <= e)%Z ->
  Range_init py (Some s) (Some e) None n = Ok (mkRange s e (e - s) n).
Proof.
  intros Hle. rewrite Range_init_bounds, Range_init_py2_cases.
  destruct (Z.ltb_spec e s); [lia | done].
Qed.

(** X2. Under Python 2 the constructor ends in [ValueError] exactly when all
    three values are absent, or a start is given whose end is absent or
    smaller, or a negative width is given. *)
Lemma Range_init_py2_ValueError (s e w : option Z) (n : option string) :
  is_ValueError (Range_init Python2 s e w n) <->
  (s = None /\ e = None /\ w = None) \/
  (exists x, s = Some x /\ (e = None \/ exists y, e = Some y /\ (y < x)%Z)) \/
  (exists z, w = Some z /\ (z < 0)%Z).
Proof.
  rewrite Range_init_py2_cases.
  destruct s as [s|], e as [e|], w as [w|]; simpl;
    repeat match goal with
           | |- context [(?a <? ?b)%Z] => destruct (Z.ltb_spec a b); simpl
           end;
    (split; [intros Hve | intros Hcase]); try exact I; try tauto; eauto 8;
    try (destruct Hcase as [(? & ? & ?) | [(x & Hx & [? | (y & Hy & ?)]) | (z & Hz & ?)]];
         simplify_eq; lia).
Qed.

(** Under Python 3 every call with an absent start or end, save the one
    with all three absent, ends in the [TypeError] of the comparison. *)
Lemma Range_init_py3_absent_bound (s e w : option Z) (n : option string) :
  s = None \/ e = None ->
  Range_init Python3 s e w n =
  match s, e, w with
  | None, None, None => Raise (ValueError Range_too_few)
  | _, _, _ => Raise TypeError
  end.
Proof.
  intros [-> | ->]; destruct s as [s|] || destruct e as [e|];
    destruct w as [w|]; reflexivity.
Qed.

(** C4. [a.overlaps(b)] on two ranges is true exactly when
    [b.start <= a.end] and [a.start <= b.end], so ranges that only share
    a boundary overlap; an argument that is not a [Range] is refused
    with a [ValueError]. *)
Theorem Range_overlaps_closed (a : Range) :
  (forall b : Range,
     exists res : bool,
       Range_overlaps a (PyRange b) = Ok res /\
       (res = true <-> (start b <= end_ a)%Z /\ (start a <= end_ b)%Z)) /\
  (forall x : pyobj,
     (forall b : Range, x <> PyRange b) ->
     Range_overlaps a x = Raise (ValueError Range_overlaps_other)).
Proof.
  split.
  - intros b. eexists. split; [reflexivity|].
    rewrite andb_true_iff, !Z.leb_le. tauto.
  - intros x Hx. destruct x; try reflexivity. by destruct (Hx r).
Qed.

Lemma Range_overlaps_closed_witness :
  (exists res : bool,
     Range_overlaps (mkRange 0 10 10 None) (PyRange (mkRange 10 20 10 None)) = Ok res /\
     (res = true <-> (10 <= 10)%Z /\ (0 <= 20)%Z)) /\
  Range_overlaps (mkRange 0 10 10 None) (PyStr "chr1")
  = Raise (ValueError Range_overlaps_other).
Proof.
  destruct (Range_overlaps_closed (mkRange 0 10 10 None)) as [Hr Hx].
  split.
  - exact (Hr (mkRange 10 20 10 None)).
  - apply Hx. intros b. discriminate.
Defined.

(** The two examples of the interface: touching ranges overlap, ranges
    one apart do not. *)
Example Range_overlaps_touching (py : python) :
  (let* a := Range_init py (Some 0%Z) (Some 10%Z) None None in
   let* b := Range_init py (Some 10%Z) (Some 20%Z) None None in
   Range_overlaps a (PyRange b)) = Ok true.
Proof. destruct py; reflexivity. Qed.

Example Range_overlaps_apart (py : python) :
  (let* a := Range_init py (Some 0%Z) (Some 10%Z) None None in
   let* b := Range_init py (Some 11%Z) (Some 20%Z) None None in
   Range_overlaps a (PyRange b)) = Ok false.
Proof. destruct py; reflexivity. Qed.

(** C5. [Range(end=5)] leaves two of the three values absent, and
    [Range(start=0, width=5)] leaves one absent and has no negative
    width.  The first passes the test on the number of absent values and
    then ends in the [TypeError] of [end - width], under both
    interpreters; the second ends in the [ValueError] of the bounds
    under Python 2. *)
Theorem Range_init_error_cases :
  Range_init Python2 None (Some 5%Z) None None = Raise TypeError /\
  Range_init Python3 None (Some 5%Z) None None = Raise TypeError /\
  Range_init Python2 (Some 0%Z) None (Some 5%Z) None
  = Raise (ValueError Range_negative).
Proof. repeat split. Qed.

(** C6. [Range(start=s, width=w)] never gives a range: the test
    [start > end] is made while [end] is still [None], which Python 2
    takes for true and Python 3 refuses to compare. *)
Theorem Range_init_start_width (py : python) (s w : Z) (n : option string) :
  Range_init py (Some s) None (Some w) n =
  Raise match py with
        | Python2 => ValueError Range_negative
        | Python3 => TypeError
        end.
Proof. destruct py; reflexivity. Qed.

(** ** The collections *)

(** C9. [overlaps()] on a [Ranges] and on a [SeqRanges] raises the
    [ValueError] that says the method is not supported, whatever the
    collection holds. *)
Theorem collection_overlaps_unsupported (r : Ranges) (s : SeqRanges) :
  Ranges_overlaps r = Raise (ValueError overlaps_unsupported) /\
  SeqRanges_overlaps s = Raise (ValueError overlaps_unsupported).
Proof. split; reflexivity. Qed.

(** C10. With every list absent there is no length to take: both
    constructors end in the [IndexError] of [list(arg_lens)[0]], not in
    a [ValueError] and not in an empty collection. *)
Theorem init_without_lists (py : python) (seqlengths : gmap string Z) :
  Ranges_init py None None None None = Raise IndexError /\
  SeqRanges_init None None None seqlengths None = Raise IndexError.
Proof.
  split.
  - unfold Ranges_init. by rewrite verify_arg_length_none.
  - unfold SeqRanges_init. by rewrite verify_arg_length_none.
Qed.

(** A loop that appends one element per index builds the list of those
    elements behind what was there. *)
Lemma for_each_append {A : Type} (body : nat -> list A -> result (list A))
    (f : nat -> A) (idx : list nat) (acc : list A) :
  (forall i acc, i ∈ idx -> body i acc = Ok (acc ++ [f i])) ->
  for_each body idx acc = Ok (acc ++ map f idx).
Proof.
  revert acc. induction idx as [|i idx IH]; intros acc Hbody; simpl.
  - by rewrite app_nil_r.
  - rewrite Hbody by left. simpl. rewrite IH.
    + by rewrite <- app_assoc.
    + intros j acc' Hj. apply Hbody. by right.
Qed.

(** A loop whose first round raises, raises. *)
Lemma for_each_first_raises {S : Type} (body : nat -> S -> result S)
    (i : nat) (idx : list nat) (st : S) :
  ~ succeeds (body i st) -> ~ succeeds (for_each body (i :: idx) st).
Proof. simpl. destruct (body i st); simpl; tauto. Qed.

Lemma map_range_lookup_total (l : list Z) :
  map (fun i => l !!! i) (range_ (length l)) = l.
Proof.
  unfold range_. apply list_eq. intros i.
  change (map ?h ?xs) with (h <$> xs). rewrite list_lookup_fmap.
  destruct (decide (i < length l)) as [Hi|Hi].
  - rewrite lookup_seq_lt by done. simpl.
    by rewrite (list_lookup_lookup_total_lt l i Hi).
  - rewrite lookup_seq_ge by lia. by rewrite lookup_ge_None_2 by lia.
Qed.

(** C7. A [Ranges] built from two lists of one length, each start at
    most its end, gives the starts back as [start], the ends as [end],
    and the differences [ends[i] - starts[i]] as [width], in the order
    of the lists. *)
Theorem Ranges_round_trip (py : python) (starts ends : list Z) :
  length starts = length ends ->
  (forall i s e, starts !! i = Some s -> ends !! i = Some e -> (s <= e)%Z) ->
  exists r : Ranges,
    Ranges_init py (Some starts) (Some ends) None None = Ok r /\
    Ranges_start r = starts /\
    Ranges_end r = ends /\
    Ranges_width r = zip_with Z.sub ends starts.
Proof.
  intros Hlen Hle. unfold Ranges_init.
  rewrite (verify_arg_length_same _ _ (length starts)); simpl.
  2: { discriminate. }
  2: { unfold len; simpl. rewrite <- Hlen. by repeat constructor. }
  rewrite (for_each_append _
             (fun i => mkRange (starts !!! i) (ends !!! i)
                         (ends !!! i - starts !!! i) None)).
  - simpl. eexists. split; [reflexivity|].
    unfold Ranges_start, Ranges_end, Ranges_width. simpl.
    rewrite !map_map. simpl. repeat split.
    + apply map_range_lookup_total.
    + rewrite Hlen. apply map_range_lookup_total.
    + unfold range_. apply list_eq. intros i.
      change (map ?h ?xs) with (h <$> xs).
      rewrite list_lookup_fmap, lookup_zip_with.
      destruct (decide (i < length starts)) as [Hi|Hi].
      * rewrite lookup_seq_lt by done. simpl.
        rewrite (list_lookup_lookup_total_lt ends i) by lia.
        by rewrite (list_lookup_lookup_total_lt starts i) by lia.
      * rewrite lookup_seq_ge by lia.
        by rewrite (lookup_ge_None_2 ends) by lia.
  - intros i acc Hi. apply elem_of_seq in Hi.
    rewrite (list_lookup_lookup_total_lt starts i) by lia.
    rewrite (list_lookup_lookup_total_lt ends i) by lia. simpl.
    rewrite Range_init_start_end; [done|].
    apply (Hle i); apply list_lookup_lookup_total_lt; lia.
Qed.

Lemma Ranges_round_trip_witness :
  exists r : Ranges,
    Ranges_init Python2 (Some [1; 2; 3]%Z) (Some [4; 5; 6]%Z) None None = Ok r /\
    Ranges_start r = [1; 2; 3]%Z /\
    Ranges_end r = [4; 5; 6]%Z /\
    Ranges_width r = [3; 3; 3]%Z.
Proof.
  apply (Ranges_round_trip Python2 [1; 2; 3]%Z [4; 5; 6]%Z).
  - reflexivity.
  - intros [|[|[|i]]] s e Hs He; simpl in *; simplify_eq; lia.
Defined.

(** C8. [s.append(t)] with [t] a [SeqRanges] leaves [s] with its own
    entries followed by those of [t], so with the two lengths added up,
    and with the keys of both [seqlengths], a key of [t] carrying the
    value it has in [t]. *)
Theorem SeqRanges_append_SeqRanges (s t : SeqRanges) :
  exists s' : SeqRanges,
    SeqRanges_append s (PySeqRanges t) = Ok s' /\
    SeqRanges_ranges s' = SeqRanges_ranges s ++ SeqRanges_ranges t /\
    SeqRanges_len s' = SeqRanges_len s + SeqRanges_len t /\
    dom (seqlengths s') = dom (seqlengths s) ∪ dom (seqlengths t) /\
    (forall k : string,
       seqlengths s' !! k =
       match seqlengths t !! k with
       | Some v => Some v
       | None => seqlengths s !! k
       end).
Proof.
  eexists. split; [reflexivity|]. simpl. repeat split.
  - unfold SeqRanges_len. simpl. apply length_app.
  - rewrite dom_union_L. apply union_comm_L.
  - intros k. rewrite lookup_union.
    destruct (seqlengths t !! k), (seqlengths s !! k); reflexivity.
Qed.

(** Appending a collection to itself, or to one that shares its
    [seqlengths] dictionary, is the same update: the entries are read
    before the list grows, and updating a dictionary from itself
    changes nothing. *)
Lemma SeqRanges_append_shared_seqlengths (s t : SeqRanges) :
  seqlengths s = seqlengths t ->
  SeqRanges_append s (PySeqRanges t)
  = Ok (mkSeqRanges (SeqRanges_ranges s ++ SeqRanges_ranges t) (seqlengths s)).
Proof.
  intros Heq. unfold SeqRanges_append. simpl.
  by rewrite Heq, (idemp (∪) (seqlengths t)).
Qed.

(** ** SeqRange *)

(** [SeqRange.__init__] never gives an instance.  A strand outside
    [STRAND_OPTIONS] is refused with the [ValueError]; one of the three
    symbols passes the test, and the assignment [self.strand = strand]
    that follows it ends in [AttributeError], because the class binds
    [strand] to a property that has no setter. *)
Lemma SeqRange_init_cases (r : Range) (n s : string)
    (d : option (gmap string Z)) :
  SeqRange_init r n s d =
  if bool_decide (s ∈ STRAND_OPTIONS) then Raise AttributeError
  else Raise (ValueError SeqRange_bad_strand).
Proof.
  unfold SeqRange_init.
  destruct (decide (s ∈ STRAND_OPTIONS)) as [Hin|Hout].
  - rewrite (bool_decide_eq_true_2 _ Hin).
    rewrite (bool_decide_eq_false_2 (s ∉ STRAND_OPTIONS)) by tauto.
    reflexivity.
  - rewrite (bool_decide_eq_false_2 _ Hout).
    rewrite (bool_decide_eq_true_2 (s ∉ STRAND_OPTIONS)) by done.
    reflexivity.
Qed.

(** C2. On any range and sequence name, with or without [data], each of
    the strands [+], [-] and [*] ends the construction in
    [AttributeError]; the strand [x] ends it in the [ValueError] that
    lists the allowed symbols. *)
Theorem SeqRange_init_strand_symbols (r : Range) (n : string)
    (d : option (gmap string Z)) :
  SeqRange_init r n "+" d = Raise AttributeError /\
  SeqRange_init r n "-" d = Raise AttributeError /\
  SeqRange_init r n "*" d = Raise AttributeError /\
  SeqRange_init r n "x" d = Raise (ValueError "strand must be either: +, -, *").
Proof. rewrite !SeqRange_init_cases. repeat split. Qed.

Lemma SeqRange_init_raises (r : Range) (n s : string) (d : option (gmap string Z)) :
  ~ succeeds (SeqRange_init r n s d).
Proof. rewrite SeqRange_init_cases. case_bool_decide; simpl; tauto. Qed.

(** The strand of a [SeqRange] cannot be read: the property asks the
    owned [Range] for an attribute it does not have. *)
Lemma SeqRange_strand_raises (a : SeqRange) :
  SeqRange_strand a = Raise AttributeError.
Proof. unfold SeqRange_strand. destruct (range a); reflexivity. Qed.

(** [SeqRange.overlaps] answers [False] for two different sequence
    names and raises otherwise. *)
Lemma SeqRange_overlaps_cases (a b : SeqRange) :
  SeqRange_overlaps a b =
  match seqname a, seqname b with
  | Some n1, Some n2 => if String.eqb n1 n2 then Raise AttributeError else Ok false
  | _, _ => Raise AttributeError
  end.
Proof.
  unfold SeqRange_overlaps.
  destruct (seqname a) as [n1|], (seqname b) as [n2|]; simpl; try reflexivity.
  destruct (String.eqb n1 n2); simpl; [|reflexivity].
  by rewrite SeqRange_strand_raises.
Qed.

Lemma SeqRange_overlaps_never_true (a b : SeqRange) :
  SeqRange_overlaps a b <> Ok true.
Proof.
  rewrite SeqRange_overlaps_cases.
  destruct (seqname a), (seqname b); try discriminate.
  destruct (String.eqb _ _); discriminate.
Qed.

(** The call [self.range.overlaps(other)] that ends the method hands the
    [SeqRange] itself, not its range, to [Range.overlaps]. *)
Lemma Range_overlaps_SeqRange (r : Range) (other : SeqRange) :
  Range_overlaps r (PySeqRange other) = Raise (ValueError Range_overlaps_other).
Proof. reflexivity. Qed.

(** ** SeqRanges *)

(** One entry: the constructor hands [strands[0]] to [SeqRange] as the
    sequence name and [seqnames[0]] as the strand, so it is the
    sequence name that is tested against [STRAND_OPTIONS]. *)
Lemma SeqRanges_init_single (r : Range) (strand seqname : string)
    (seqlengths : gmap string Z) :
  SeqRanges_init (Some [r]) (Some [strand]) (Some [seqname]) seqlengths None =
  if bool_decide (seqname ∈ STRAND_OPTIONS) then Raise AttributeError
  else Raise (ValueError SeqRange_bad_strand).
Proof.
  unfold SeqRanges_init.
  rewrite (verify_arg_length_same _ _ 1); [| discriminate | by repeat constructor].
  simpl. rewrite SeqRange_init_cases. by case_bool_decide.
Qed.

(** A construction that succeeds has no entries: the first round of the
    loop ends in the exception of [SeqRange.__init__] or of a subscript. *)
Lemma SeqRanges_init_Ok_empty (ranges : option (list Range))
    (strands seqnames : option (list string)) (seqlengths : gmap string Z)
    (data_list : option (list (gmap string Z))) (c : SeqRanges) :
  SeqRanges_init ranges strands seqnames seqlengths data_list = Ok c ->
  SeqRanges_ranges c = [].
Proof.
  unfold SeqRanges_init. intros Hinit.
  apply bind_Ok in Hinit as (arg_len & _ & Hinit).
  apply bind_Ok in Hinit as (entries & Hloop & Hc).
  injection Hc as <-. simpl.
  destruct arg_len as [|m].
  - simpl in Hloop. by injection Hloop as <-.
  - exfalso. unfold range_ in Hloop. simpl seq in Hloop.
    eapply for_each_first_raises; [| apply succeeds_Ok; eauto].
    apply bind_Raise. intros rng.
    destruct data_list;
      repeat first [ apply bind_Raise_here, SeqRange_init_raises
                   | apply bind_Raise; intros ? ].
Qed.

(** [SeqRanges([Range over [0, 5]], ["+"], ["chr1"])] is refused with
    the [ValueError] of the strand test, which is applied to ["chr1"];
    with the two lists exchanged the test passes and the construction
    ends in the [AttributeError] of [self.strand = strand]. *)
Example SeqRanges_init_one_entry :
  SeqRanges_init (Some [mkRange 0 5 5 None]) (Some ["+"]) (Some ["chr1"]) ∅ None
  = Raise (ValueError SeqRange_bad_strand) /\
  SeqRanges_init (Some [mkRange 0 5 5 None]) (Some ["chr1"]) (Some ["+"]) ∅ None
  = Raise AttributeError.
Proof. split; by rewrite SeqRanges_init_single. Qed.

(** The empty lists give the empty collection. *)
Example SeqRanges_init_empty (seqlengths : gmap string Z) :
  SeqRanges_init (Some []) (Some []) (Some []) seqlengths None
  = Ok (mkSeqRanges [] seqlengths).
Proof.
  unfold SeqRanges_init.
  by rewrite (verify_arg_length_same _ _ 0); [| discriminate | repeat constructor].
Qed.




(** Lists of different lengths are refused by both constructors. *)
Example Ranges_init_mismatch (py : python) :
  Ranges_init py (Some [0; 5]%Z) (Some [3; 5]%Z) None (Some ["a"])
  = Raise (ValueError Ranges_mismatch).
Proof.
  unfold Ranges_init.
  rewrite (verify_arg_length_mismatch _ _ 2 1); [done | | | done].
  - left.
  - do 2 right. left.
Qed.

(** * Further properties *)

(** ** verify_arg_length *)

(** X1. [verify_arg_length] returns [n] exactly when at least one list
    is given and every given list has length [n]; it raises
    [IndexError] exactly when no list is given, and the [ValueError]
    with the caller's message exactly when two given lists differ in
    length. *)
Theorem verify_arg_length_spec (msg : string) (args : list (option pylist)) :
  let lens := omap (fmap len) args in
  (forall n, verify_arg_length msg args = Ok n <-> lens <> [] /\ Forall (eq n) lens) /\
  (verify_arg_length msg args = Raise IndexError <-> lens = []) /\
  (verify_arg_length msg args = Raise (ValueError msg) <->
   exists n m, n ∈ lens /\ m ∈ lens /\ n <> m).
Proof.
  intros lens. pose proof (verify_arg_length_cases msg args) as Hcases.
  cbv zeta in Hcases. fold lens in Hcases. split; [|split].
  - intros n. split.
    + intros Hok. by rewrite Hok in Hcases.
    + intros [Hne Hall]. by apply verify_arg_length_same.
  - split.
    + intros Hraise. rewrite Hraise in Hcases.
      by destruct Hcases as [[_ ?] | [? _]].
    + apply verify_arg_length_none.
  - split.
    + intros Hraise. rewrite Hraise in Hcases.
      by destruct Hcases as [[? _] | [_ ?]].
    + intros (n & m & Hn & Hm & Hnm). by apply (verify_arg_length_mismatch _ _ n m).
Qed.

(** ** Range *)

(** X3. Whatever was passed, a range that [Range.__init__] returns has
    [start <= end] and a width of at least 0, carries the name it was
    given and the end it was given (no call without an end succeeds),
    and keeps a start and a width that were passed; its width is
    [end - start] whenever the start or the width was left out. *)
Theorem Range_init_invariant (py : python) (s e w : option Z)
    (n : option string) (r : Range) :
  Range_init py s e w n = Ok r ->
  (start r <= end_ r)%Z /\ (0 <= width r)%Z /\ name r = n /\
  e = Some (end_ r) /\
  (forall x, s = Some x -> start r = x) /\
  (forall x, w = Some x -> width r = x) /\
  (s = None \/ w = None -> width r = (end_ r - start r)%Z).
Proof.
  intros Hinit.
  assert (Hpy2 : Range_init Python2 s e w n = Ok r).
  { destruct py; [done|].
    destruct s as [s|], e as [e|];
      [ by rewrite Range_init_bounds in Hinit | | | ];
      rewrite Range_init_py3_absent_bound in Hinit by tauto;
      destruct w; discriminate. }
  clear Hinit. rewrite Range_init_py2_cases in Hpy2.
  destruct s as [s|], e as [e|], w as [w|]; try discriminate;
    repeat match type of Hpy2 with
           | context [(?a <? ?b)%Z] => destruct (Z.ltb_spec a b); simpl in Hpy2
           end;
    try discriminate; injection Hpy2 as <-; simpl;
    repeat split; try lia; try (intros x [= <-]; lia); try (intros [?|?]; done).
Qed.

Lemma Range_init_invariant_witness :
  (3 <= 10)%Z /\ (0 <= 7)%Z /\ Some "hit" = Some "hit" /\
  Some 10%Z = Some 10%Z /\
  (forall x : Z, None = Some x -> 3%Z = x) /\
  (forall x : Z, Some 7%Z = Some x -> 7%Z = x) /\
  (@None Z = None \/ Some 7%Z = None -> 7%Z = (10 - 3)%Z).
Proof.
  apply (Range_init_invariant Python2 None (Some 10%Z) (Some 7%Z) (Some "hit")
           (mkRange 3 10 7 (Some "hit"))).
  reflexivity.
Defined.

(** X4. With all three values given, a start at most the end and a
    width of at least 0 are all that is asked: the three are stored as
    they are, whether or not the width is [end - start]. *)
Theorem Range_init_three_given (py : python) (s e w : Z) (n : option string) :
  (s <= e)%Z -> (0 <= w)%Z ->
  Range_init py (Some s) (Some e) (Some w) n = Ok (mkRange s e w n).
Proof.
  intros Hse Hw. rewrite Range_init_bounds, Range_init_py2_cases.
  destruct (Z.ltb_spec e s), (Z.ltb_spec w 0); simpl; done || lia.
Qed.

Lemma Range_init_three_given_witness :
  Range_init Python2 (Some 1%Z) (Some 2%Z) (Some 7%Z) None = Ok (mkRange 1 2 7 None).
Proof. apply Range_init_three_given; lia. Defined.

(** X5. An end and a width of at least 0, the start left out: Python 2
    builds the range that starts at [end - width]; Python 3 stops at
    the comparison of [None] with the end. *)
Theorem Range_init_end_width (e w : Z) (n : option string) :
  (0 <= w)%Z ->
  Range_init Python2 None (Some e) (Some w) n = Ok (mkRange (e - w) e w n) /\
  Range_init Python3 None (Some e) (Some w) n = Raise TypeError.
Proof.
  intros Hw. split; [|reflexivity].
  rewrite Range_init_py2_cases. destruct (Z.ltb_spec w 0); done || lia.
Qed.

Lemma Range_init_end_width_witness :
  Range_init Python2 None (Some 10%Z) (Some 4%Z) None = Ok (mkRange 6 10 4 None) /\
  Range_init Python3 None (Some 10%Z) (Some 4%Z) None = Raise TypeError.
Proof. apply (Range_init_end_width 10 4 None). lia. Defined.

(** X6. Overlap of two ranges does not depend on which of the two is
    asked. *)
Theorem Range_overlaps_sym (a b : Range) :
  Range_overlaps a (PyRange b) = Range_overlaps b (PyRange a).
Proof. unfold Range_overlaps. simpl. f_equal. apply andb_comm. Qed.

(** X7. For two ranges with [start <= end], [overlaps] is true exactly
    when some integer lies in both closed intervals. *)
Theorem Range_overlaps_common_point (a b : Range) :
  (start a <= end_ a)%Z -> (start b <= end_ b)%Z ->
  Range_overlaps a (PyRange b) = Ok true <->
  exists z : Z, (start a <= z <= end_ a)%Z /\ (start b <= z <= end_ b)%Z.
Proof.
  intros Ha Hb. unfold Range_overlaps. simpl. split.
  - intros [= Hov]. apply andb_true_iff in Hov as [H1 H2].
    apply Z.leb_le in H1, H2.
    exists (Z.max (start a) (start b)). lia.
  - intros (z & Hza & Hzb). f_equal.
    apply andb_true_iff. rewrite !Z.leb_le. lia.
Qed.

Lemma Range_overlaps_common_point_witness :
  Range_overlaps (mkRange 0 10 10 None) (PyRange (mkRange 10 20 10 None)) = Ok true <->
  exists z : Z, (0 <= z <= 10)%Z /\ (10 <= z <= 20)%Z.
Proof.
  apply (Range_overlaps_common_point (mkRange 0 10 10 None) (mkRange 10 20 10 None));
    simpl; lia.
Defined.

(** ** Ranges *)

Lemma bind_Raise_inv {A B : Type} (c : result A) (k : A -> result B) (e : exn) :
  bind c k = Raise e -> c = Raise e \/ exists a, c = Ok a /\ k a = Raise e.
Proof. destruct c as [a|e']; simpl; [eauto | intros [= ->]; by left]. Qed.

Lemma for_each_ext {S : Type} (body body' : nat -> S -> result S)
    (idx : list nat) (st : S) :
  (forall i st, body i st = body' i st) ->
  for_each body idx st = for_each body' idx st.
Proof.
  intros Hext. revert st. induction idx as [|i idx IH]; intros st; simpl; [done|].
  rewrite Hext. destruct (body' i st); simpl; [apply IH | done].
Qed.

(** A loop that appends what [g] gives for each index succeeds exactly
    when [g] does on every index, with the results in order. *)
Lemma for_each_collect {A : Type} (g : nat -> result A) (idx : list nat)
    (acc l : list A) :
  for_each (fun i acc => let* x := g i in Ok (acc ++ [x])) idx acc = Ok l <->
  exists xs, l = acc ++ xs /\ Forall2 (fun i x => g i = Ok x) idx xs.
Proof.
  revert acc. induction idx as [|i idx IH]; intros acc; simpl.
  - split.
    + intros [= <-]. exists []. by rewrite app_nil_r.
    + intros (xs & -> & Hxs). apply Forall2_nil_inv_l in Hxs as ->.
      by rewrite app_nil_r.
  - split.
    + intros Hloop. apply bind_Ok in Hloop as (acc' & Hstep & Hloop).
      apply bind_Ok in Hstep as (x & Hx & [= <-]).
      apply IH in Hloop as (xs & -> & Hxs).
      exists (x :: xs). split; [by rewrite <- app_assoc | by constructor].
    + intros (xs & -> & Hxs).
      apply Forall2_cons_inv_l in Hxs as (x & xs' & Hx & Hxs & ->).
      rewrite Hx. simpl. apply IH. exists xs'. by rewrite <- app_assoc.
Qed.

(** The first index on which [g] raises ends the loop with that
    exception. *)
Lemma for_each_collect_raise {A : Type} (g : nat -> result A) (e : exn)
    (idx : list nat) (acc : list A) :
  (forall i, i ∈ idx -> g i = Raise e \/ succeeds (g i)) ->
  (exists i, i ∈ idx /\ g i = Raise e) ->
  for_each (fun i acc => let* x := g i in Ok (acc ++ [x])) idx acc = Raise e.
Proof.
  revert acc. induction idx as [|i idx IH]; intros acc Hall (j & Hj & Hraise).
  - by apply elem_of_nil in Hj.
  - simpl. destruct (Hall i) as [Hi|Hi]; [left | by rewrite Hi |].
    apply succeeds_Ok in Hi as [x Hx]. rewrite Hx. simpl.
    apply IH.
    + intros k Hk. apply Hall. by right.
    + apply elem_of_cons in Hj as [->|Hj]; [congruence|]. eauto.
Qed.

(** [Ranges.__init__] as a length check followed by the collection of
    the entries. *)
Lemma Ranges_init_entries (py : python) (starts ends widths : option (list Z))
    (names : option (list string)) :
  Ranges_init py starts ends widths names =
  let* arg_len :=
    verify_arg_length Ranges_mismatch
      [PyL <$> starts; PyL <$> ends; PyL <$> widths; PyL <$> names] in
  let* _ranges :=
    for_each (fun i acc =>
                let* x := Ranges_entry py starts ends widths names i in
                Ok (acc ++ [x])) (range_ arg_len) [] in
  Ok (mkRanges _ranges).
Proof.
  unfold Ranges_init. cbv zeta.
  destruct (verify_arg_length _ _) as [arg_len|e]; simpl; [|done].
  f_equal. erewrite for_each_ext; [reflexivity|].
  intros i acc. unfold Ranges_entry.
  destruct widths as [ws|]; [destruct (subscript (Some ws) i); simpl|];
    (destruct names as [ns|]; [destruct (subscript (Some ns) i); simpl|]);
    try reflexivity;
    destruct (subscript starts i); simpl; try reflexivity;
    destruct (subscript ends i); simpl; reflexivity.
Qed.

(** A range built from both bounds. *)
Lemma Range_init_bounds_Ok (py : python) (s e : Z) (w : option Z)
    (n : option string) (r : Range) :
  Range_init py (Some s) (Some e) w n = Ok r ->
  r = mkRange s e (default (e - s)%Z w) n /\ (s <= e)%Z /\ (0 <= width r)%Z.
Proof.
  rewrite Range_init_bounds, Range_init_py2_cases.
  destruct w as [w|]; simpl;
    repeat match goal with
           | |- context [(?a <? ?b)%Z] => destruct (Z.ltb_spec a b); simpl
           end;
    try discriminate; intros [= <-]; simpl; repeat split; lia.
Qed.

Lemma Range_init_bounds_result (py : python) (s e : Z) (w : option Z)
    (n : option string) :
  Range_init py (Some s) (Some e) w n = Raise (ValueError Range_negative) \/
  succeeds (Range_init py (Some s) (Some e) w n).
Proof.
  rewrite Range_init_bounds, Range_init_py2_cases.
  destruct w as [w|]; simpl;
    repeat match goal with
           | |- context [(?a <? ?b)%Z] => destruct (Z.ltb_spec a b); simpl
           end; tauto.
Qed.

Lemma subscript_Ok {A : Type} (l : option (list A)) (i : nat) (x : A) :
  subscript l i = Ok x <-> exists xs, l = Some xs /\ xs !! i = Some x.
Proof.
  unfold subscript. destruct l as [xs|]; [destruct (xs !! i) eqn:Hi|]; split;
    try discriminate; try (intros [= <-]; eauto);
    intros (ys & Hys & Hx); simplify_eq; congruence.
Qed.

Lemma Ranges_entry_Ok (py : python) (starts ends : list Z)
    (widths : option (list Z)) (names : option (list string)) (i : nat) (x : Range) :
  Ranges_entry py (Some starts) (Some ends) widths names i = Ok x ->
  exists s e,
    starts !! i = Some s /\ ends !! i = Some e /\ (s <= e)%Z /\ (0 <= width x)%Z /\
    start x = s /\ end_ x = e /\
    match widths with
    | Some ws => ws !! i = Some (width x)
    | None => width x = (e - s)%Z
    end /\
    match names with
    | Some ns => exists n, ns !! i = Some n /\ name x = Some n
    | None => name x = None
    end.
Proof.
  unfold Ranges_entry. intros Hentry.
  apply bind_Ok in Hentry as (widths_i & Hw & Hentry).
  apply bind_Ok in Hentry as (names_i & Hn & Hentry).
  apply bind_Ok in Hentry as (s & Hs & Hentry).
  apply bind_Ok in Hentry as (e & He & Hentry).
  apply subscript_Ok in Hs as (? & [= <-] & Hs).
  apply subscript_Ok in He as (? & [= <-] & He).
  apply Range_init_bounds_Ok in Hentry as (-> & Hle & Hwidth).
  exists s, e. simpl in *. repeat split; try done.
  - destruct widths as [ws|].
    + apply bind_Ok in Hw as (w & Hw & [= <-]).
      by apply subscript_Ok in Hw as (? & [= <-] & Hw).
    + by injection Hw as <-.
  - destruct names as [ns|].
    + apply bind_Ok in Hn as (n & Hn & [= <-]).
      apply subscript_Ok in Hn as (? & [= <-] & Hn). eauto.
    + by injection Hn as <-.
Qed.

Lemma map_eq_lookup {A B : Type} (f : A -> B) (xs : list A) (l : list B) :
  length xs = length l ->
  (forall i x, xs !! i = Some x -> l !! i = Some (f x)) ->
  map f xs = l.
Proof.
  intros Hlen Hlook. apply list_eq. intros i.
  change (map f xs) with (f <$> xs). rewrite list_lookup_fmap.
  destruct (xs !! i) as [x|] eqn:Hx; simpl.
  - symmetry. by apply Hlook.
  - symmetry. apply lookup_ge_None. apply lookup_ge_None in Hx. lia.
Qed.

(** X8. A [Ranges] built from starts and ends, with or without widths
    and names, reads back the starts and the ends it was given; its
    widths are the ones passed, as passed, or else [ends[i] - starts[i]];
    and every entry has [start <= end] and a width of at least 0. *)
Theorem Ranges_init_reads_back (py : python) (starts ends : list Z)
    (widths : option (list Z)) (names : option (list string)) (r : Ranges) :
  Ranges_init py (Some starts) (Some ends) widths names = Ok r ->
  Ranges_len r = length starts /\
  Ranges_start r = starts /\
  Ranges_end r = ends /\
  Ranges_width r = default (zip_with Z.sub ends starts) widths /\
  Forall (fun x => (start x <= end_ x)%Z /\ (0 <= width x)%Z) (Ranges_ranges r).
Proof.
  rewrite Ranges_init_entries. intros Hinit.
  apply bind_Ok in Hinit as (n & Hlen & Hinit).
  apply bind_Ok in Hinit as (l & Hloop & [= <-]).
  apply for_each_collect in Hloop as (xs & -> & Hxs). simpl.
  pose proof (verify_arg_length_cases Ranges_mismatch
                [PyL <$> Some starts; PyL <$> Some ends; PyL <$> widths; PyL <$> names])
    as Hspec.
  rewrite Hlen in Hspec. destruct Hspec as [_ Hlens]. simpl in Hlens.
  apply Forall_cons in Hlens as [Hs Hlens].
  apply Forall_cons in Hlens as [He Hlens].
  unfold len in Hs, He. simpl in Hs, He.
  pose proof (Forall2_length _ _ _ Hxs) as Hn.
  unfold range_ in Hn, Hxs. rewrite length_seq in Hn.
  assert (Hentry : forall i x, xs !! i = Some x ->
            Ranges_entry py (Some starts) (Some ends) widths names i = Ok x).
  { intros i x Hx.
    destruct (Forall2_lookup_r _ _ _ _ _ Hxs Hx) as (j & Hj & Hok).
    apply lookup_seq in Hj as [-> _]. done. }
  unfold Ranges_len, Ranges_start, Ranges_end, Ranges_width. simpl.
  repeat split.
  - lia.
  - apply map_eq_lookup; [lia|]. intros i x Hx.
    apply Hentry, Ranges_entry_Ok in Hx as (s & e & Hs' & _ & _ & _ & <- & _). done.
  - apply map_eq_lookup; [lia|]. intros i x Hx.
    apply Hentry, Ranges_entry_Ok in Hx as (s & e & _ & He' & _ & _ & _ & <- & _). done.
  - destruct widths as [ws|]; simpl.
    + apply Forall_cons in Hlens as [Hw _]. unfold len in Hw. simpl in Hw.
      apply map_eq_lookup; [lia|]. intros i x Hx.
      apply Hentry, Ranges_entry_Ok in Hx as (s & e & _ & _ & _ & _ & _ & _ & Hw' & _).
      done.
    + apply map_eq_lookup; [rewrite length_zip_with; lia|]. intros i x Hx.
      apply Hentry, Ranges_entry_Ok in Hx
        as (s & e & Hs' & He' & _ & _ & _ & _ & -> & _).
      rewrite lookup_zip_with, He', Hs'. done.
  - apply Forall_forall. intros x Hx.
    apply list_elem_of_lookup in Hx as [i Hx].
    apply Hentry, Ranges_entry_Ok in Hx as (s & e & _ & _ & Hle & Hw & <- & <- & _).
    done.
Qed.

Lemma Ranges_init_reads_back_witness :
  Ranges_len (mkRanges [mkRange 1 4 9 (Some "a"); mkRange 2 5 0 (Some "b")]) = 2 /\
  Ranges_start (mkRanges [mkRange 1 4 9 (Some "a"); mkRange 2 5 0 (Some "b")]) = [1; 2]%Z /\
  Ranges_end (mkRanges [mkRange 1 4 9 (Some "a"); mkRange 2 5 0 (Some "b")]) = [4; 5]%Z /\
  Ranges_width (mkRanges [mkRange 1 4 9 (Some "a"); mkRange 2 5 0 (Some "b")]) = [9; 0]%Z /\
  Forall (fun x => (start x <= end_ x)%Z /\ (0 <= width x)%Z)
    [mkRange 1 4 9 (Some "a"); mkRange 2 5 0 (Some "b")].
Proof.
  apply (Ranges_init_reads_back Python2 [1; 2]%Z [4; 5]%Z (Some [9; 0]%Z)
           (Some ["a"; "b"])).
  vm_compute. reflexivity.
Defined.

(** X9. One position whose start exceeds its end fails the whole
    construction with the [ValueError] of [Range.__init__], wherever in
    the lists it is and whatever the other positions hold. *)
Theorem Ranges_init_bad_bounds (py : python) (starts ends : list Z)
    (i : nat) (s e : Z) :
  length starts = length ends ->
  starts !! i = Some s -> ends !! i = Some e -> (e < s)%Z ->
  Ranges_init py (Some starts) (Some ends) None None
  = Raise (ValueError Range_negative).
Proof.
  intros Hlen Hs He Hlt. rewrite Ranges_init_entries.
  rewrite (verify_arg_length_same _ _ (length starts)); simpl.
  2: { discriminate. }
  2: { unfold len; simpl. rewrite <- Hlen. by repeat constructor. }
  rewrite (for_each_collect_raise _ (ValueError Range_negative)); [done| |].
  - intros j Hj. apply elem_of_seq in Hj. unfold Ranges_entry. simpl.
    rewrite (list_lookup_lookup_total_lt starts j) by lia.
    rewrite (list_lookup_lookup_total_lt ends j) by lia. simpl.
    apply Range_init_bounds_result.
  - exists i. split.
    + apply elem_of_seq. apply lookup_lt_Some in Hs. lia.
    + unfold Ranges_entry. simpl. rewrite Hs, He. simpl.
      rewrite Range_init_bounds, Range_init_py2_cases.
      destruct (Z.ltb_spec e s); [done | lia].
Qed.

Lemma Ranges_init_bad_bounds_witness :
  Ranges_init Python2 (Some [1; 9; 3]%Z) (Some [4; 5; 6]%Z) None None
  = Raise (ValueError Range_negative).
Proof.
  apply (Ranges_init_bad_bounds Python2 [1; 9; 3]%Z [4; 5; 6]%Z 1 9%Z 5%Z);
    reflexivity || lia.
Defined.

(** X10. Starts and widths alone do not make a [Ranges]: with the ends
    left out and the lists not empty, the first position ends in the
    [TypeError] of [ends[i]], before any [Range] is built. *)
Theorem Ranges_init_without_ends (py : python) (starts widths : list Z) :
  length starts = length widths -> starts <> [] ->
  Ranges_init py (Some starts) None (Some widths) None = Raise TypeError.
Proof.
  intros Hlen Hne. rewrite Ranges_init_entries.
  rewrite (verify_arg_length_same _ _ (length starts)); simpl.
  2: { discriminate. }
  2: { unfold len; simpl. rewrite <- Hlen. by repeat constructor. }
  destruct starts as [|s starts]; [done|].
  destruct widths as [|w widths]; [done|]. reflexivity.
Qed.

Lemma Ranges_init_without_ends_witness :
  Ranges_init Python2 (Some [1; 2]%Z) None (Some [3; 3]%Z) None = Raise TypeError.
Proof. apply Ranges_init_without_ends; [reflexivity | discriminate]. Defined.

(** X11. Starts and ends of different lengths are refused with the
    length message before any position is looked at, whatever widths
    and names are passed. *)
Theorem Ranges_init_length_mismatch (py : python) (starts ends : list Z)
    (widths : option (list Z)) (names : option (list string)) :
  length starts <> length ends ->
  Ranges_init py (Some starts) (Some ends) widths names
  = Raise (ValueError Ranges_mismatch).
Proof.
  intros Hlen. unfold Ranges_init.
  rewrite (verify_arg_length_mismatch _ _ (length starts) (length ends)); [done| | |done].
  - simpl. left.
  - simpl. right. left.
Qed.

Lemma Ranges_init_length_mismatch_witness :
  Ranges_init Python2 (Some [0; 5]%Z) (Some [3]%Z) None None
  = Raise (ValueError Ranges_mismatch).
Proof. apply Ranges_init_length_mismatch. simpl. lia. Defined.

(** ** Positions in a collection *)

Lemma py_index_Ok (n : nat) (i : Z) (j : nat) :
  py_index n i = Ok j <->
  (0 <= i < Z.of_nat n)%Z /\ j = Z.to_nat i \/
  (- Z.of_nat n <= i < 0)%Z /\ j = Z.to_nat (i + Z.of_nat n).
Proof.
  unfold py_index.
  destruct (Z.ltb_spec i 0); simpl;
    repeat match goal with
           | |- context [(?a <? ?b)%Z] => destruct (Z.ltb_spec a b); simpl
           | |- context [(?a <=? ?b)%Z] => destruct (Z.leb_spec a b); simpl
           end;
    split; try discriminate; try (intros [= <-]; lia);
    intros [[? ->] | [? ->]]; try lia; done.
Qed.

Lemma py_index_Raise (n : nat) (i : Z) :
  (i < - Z.of_nat n)%Z \/ (Z.of_nat n <= i)%Z -> py_index n i = Raise IndexError.
Proof.
  intros Hout. destruct (py_index n i) as [j|e] eqn:Hidx.
  - apply py_index_Ok in Hidx. lia.
  - unfold py_index in Hidx.
    destruct (_ || _) in Hidx; congruence.
Qed.

Lemma py_index_lt (n : nat) (i : Z) (j : nat) : py_index n i = Ok j -> j < n.
Proof. intros Hidx. apply py_index_Ok in Hidx. lia. Qed.

Lemma list_getitem_Ok {A : Type} (l : list A) (i : Z) (x : A) :
  list_getitem l i = Ok x <-> exists j, py_index (length l) i = Ok j /\ l !! j = Some x.
Proof.
  unfold list_getitem. split.
  - intros Hget. apply bind_Ok in Hget as (j & Hj & Hget).
    exists j. split; [done|]. destruct (l !! j); congruence.
  - intros (j & -> & Hj). simpl. by rewrite Hj.
Qed.

Lemma list_set_get {A : Type} (l l' : list A) (i : Z) (x : A) :
  list_setitem l i x = Ok l' ->
  list_getitem l' i = Ok x /\ length l' = length l /\
  (forall k, py_index (length l) k <> py_index (length l) i ->
             list_getitem l' k = list_getitem l k).
Proof.
  unfold list_setitem. intros Hset.
  apply bind_Ok in Hset as (j & Hj & [= <-]).
  pose proof (py_index_lt _ _ _ Hj) as Hlt.
  split; [|split].
  - apply list_getitem_Ok. exists j. rewrite length_insert.
    split; [done|]. by apply list_lookup_insert_eq.
  - apply length_insert.
  - intros k Hk. unfold list_getitem. rewrite length_insert.
    destruct (py_index (length l) k) as [j'|e] eqn:Hj'; simpl; [|done].
    rewrite list_lookup_insert_ne; [done|]. congruence.
Qed.

Lemma list_del_get {A : Type} (l : list A) (i : Z) :
  (0 <= i < Z.of_nat (length l))%Z ->
  exists l',
    list_delitem l i = Ok l' /\ S (length l') = length l /\
    (forall k, (0 <= k < i)%Z -> list_getitem l' k = list_getitem l k) /\
    (forall k, (i <= k < Z.of_nat (length l'))%Z ->
               list_getitem l' k = list_getitem l (k + 1)).
Proof.
  intros Hi. unfold list_delitem.
  assert (Hidx : py_index (length l) i = Ok (Z.to_nat i)).
  { apply py_index_Ok. left. done. }
  rewrite Hidx. simpl. eexists. split; [reflexivity|].
  assert (Hlen : S (length (delete (Z.to_nat i) l)) = length l).
  { rewrite length_delete; [lia|]. apply lookup_lt_is_Some. lia. }
  split; [done|]. split.
  - intros k Hk. unfold list_getitem.
    rewrite (proj2 (py_index_Ok _ k (Z.to_nat k))) by (left; lia).
    rewrite (proj2 (py_index_Ok (length l) k (Z.to_nat k))) by (left; lia).
    simpl. rewrite list_lookup_delete_lt by lia. done.
  - intros k Hk. unfold list_getitem.
    rewrite (proj2 (py_index_Ok _ k (Z.to_nat k))) by (left; lia).
    rewrite (proj2 (py_index_Ok (length l) (k + 1) (Z.to_nat (k + 1)))) by (left; lia).
    simpl. rewrite list_lookup_delete_ge by lia.
    replace (Z.to_nat (k + 1)) with (S (Z.to_nat k)) by lia. done.
Qed.

(** X12. After [rs[i] = r] the collection gives [r] back at [i], has
    the length it had, and gives at every other position what it gave
    before; two indexes are the same position when they differ by the
    length. *)
Theorem Ranges_setitem_getitem (self self' : Ranges) (i : Z) (r : Range) :
  Ranges_setitem self i r = Ok self' ->
  Ranges_getitem self' i = Ok r /\
  Ranges_len self' = Ranges_len self /\
  (forall k, py_index (Ranges_len self) k <> py_index (Ranges_len self) i ->
             Ranges_getitem self' k = Ranges_getitem self k).
Proof.
  unfold Ranges_setitem. intros Hset.
  apply bind_Ok in Hset as (l' & Hset & [= <-]).
  by apply list_set_get in Hset.
Qed.

Lemma Ranges_setitem_getitem_witness :
  Ranges_getitem (mkRanges [mkRange 0 1 1 None; mkRange 7 9 2 None]) (-1)
  = Ok (mkRange 7 9 2 None) /\
  Ranges_len (mkRanges [mkRange 0 1 1 None; mkRange 7 9 2 None]) = 2 /\
  (forall k, py_index 2 k <> py_index 2 (-1) ->
             Ranges_getitem (mkRanges [mkRange 0 1 1 None; mkRange 7 9 2 None]) k
             = Ranges_getitem (mkRanges [mkRange 0 1 1 None; mkRange 2 3 1 None]) k).
Proof.
  apply (Ranges_setitem_getitem
           (mkRanges [mkRange 0 1 1 None; mkRange 2 3 1 None]) _ (-1) (mkRange 7 9 2 None)).
  reflexivity.
Defined.

(** X13. In a collection of [n] ranges the indexes [0 <= i < n] each
    name an entry, and [i - n] names the same entry as [i]: the last
    entry is also entry [-1]. *)
Theorem Ranges_getitem_negative (self : Ranges) (i : Z) :
  (0 <= i < Z.of_nat (Ranges_len self))%Z ->
  succeeds (Ranges_getitem self i) /\
  Ranges_getitem self (i - Z.of_nat (Ranges_len self)) = Ranges_getitem self i.
Proof.
  intros Hi. unfold Ranges_getitem, list_getitem. unfold Ranges_len in *.
  rewrite (proj2 (py_index_Ok _ i (Z.to_nat i))) by (left; lia).
  rewrite (proj2 (py_index_Ok _ (i - _) (Z.to_nat i))).
  2: { right. split; [lia|]. f_equal. lia. }
  simpl. split; [|done].
  destruct (lookup_lt_is_Some_2 (Ranges_ranges self) (Z.to_nat i)) as [x Hx]; [lia|].
  by rewrite Hx.
Qed.

Lemma Ranges_getitem_negative_witness :
  succeeds (Ranges_getitem (mkRanges [mkRange 0 1 1 None; mkRange 2 3 1 None]) 1) /\
  Ranges_getitem (mkRanges [mkRange 0 1 1 None; mkRange 2 3 1 None]) (1 - Z.of_nat 2)
  = Ranges_getitem (mkRanges [mkRange 0 1 1 None; mkRange 2 3 1 None]) 1.
Proof.
  apply (Ranges_getitem_negative (mkRanges [mkRange 0 1 1 None; mkRange 2 3 1 None]) 1).
  unfold Ranges_len. simpl. lia.
Defined.

Lemma py_index_Raise_iff (n : nat) (i : Z) :
  py_index n i = Raise IndexError <-> (i < - Z.of_nat n)%Z \/ (Z.of_nat n <= i)%Z.
Proof.
  split; [|apply py_index_Raise]. intros Hidx.
  destruct (decide ((i < - Z.of_nat n)%Z \/ (Z.of_nat n <= i)%Z)) as [|Hin]; [done|].
  destruct (Z.ltb_spec i 0).
  - rewrite (proj2 (py_index_Ok n i (Z.to_nat (i + Z.of_nat n)))) in Hidx;
      [done | right; lia].
  - rewrite (proj2 (py_index_Ok n i (Z.to_nat i))) in Hidx; [done | left; lia].
Qed.

Lemma list_getitem_Raise {A : Type} (l : list A) (i : Z) (e : exn) :
  list_getitem l i = Raise e <-> py_index (length l) i = Raise e.
Proof.
  unfold list_getitem. destruct (py_index (length l) i) as [j|e'] eqn:Hidx; simpl.
  - apply py_index_lt in Hidx.
    destruct (lookup_lt_is_Some_2 l j Hidx) as [x ->]. split; discriminate.
  - split; congruence.
Qed.

(** X15. Reading, assigning and deleting at index [i] in a collection
    of [n] ranges end in [IndexError] exactly when [i < -n] or
    [n <= i]; on an empty collection, at every index. *)
Theorem Ranges_index_error (self : Ranges) (i : Z) (r : Range) :
  let out := (i < - Z.of_nat (Ranges_len self))%Z \/ (Z.of_nat (Ranges_len self) <= i)%Z in
  (Ranges_getitem self i = Raise IndexError <-> out) /\
  (Ranges_setitem self i r = Raise IndexError <-> out) /\
  (Ranges_delitem self i = Raise IndexError <-> out).
Proof.
  intros out. unfold out, Ranges_len. rewrite <- py_index_Raise_iff.
  unfold Ranges_getitem, Ranges_setitem, Ranges_delitem, list_setitem, list_delitem.
  rewrite list_getitem_Raise.
  destruct (py_index _ i); simpl; repeat split; congruence.
Qed.

(** X14. [del rs[i]] at a position [0 <= i < len(rs)] takes one entry
    away: the entries before [i] stay where they are and each later one
    moves down by one. *)
Theorem Ranges_delitem_shifts (self : Ranges) (i : Z) :
  (0 <= i < Z.of_nat (Ranges_len self))%Z ->
  exists self' : Ranges,
    Ranges_delitem self i = Ok self' /\
    S (Ranges_len self') = Ranges_len self /\
    (forall k, (0 <= k < i)%Z -> Ranges_getitem self' k = Ranges_getitem self k) /\
    (forall k, (i <= k < Z.of_nat (Ranges_len self'))%Z ->
               Ranges_getitem self' k = Ranges_getitem self (k + 1)).
Proof.
  intros Hi. destruct (list_del_get (Ranges_ranges self) i Hi)
    as (l' & Hdel & Hlen & Hbefore & Hafter).
  exists (mkRanges l'). unfold Ranges_delitem. rewrite Hdel. done.
Qed.

Lemma Ranges_delitem_shifts_witness :
  exists self' : Ranges,
    Ranges_delitem (mkRanges [mkRange 0 1 1 None; mkRange 2 3 1 None; mkRange 4 5 1 None]) 1
    = Ok self' /\
    S (Ranges_len self') = 3 /\
    (forall k, (0 <= k < 1)%Z ->
       Ranges_getitem self' k
       = Ranges_getitem (mkRanges [mkRange 0 1 1 None; mkRange 2 3 1 None; mkRange 4 5 1 None]) k) /\
    (forall k, (1 <= k < Z.of_nat (Ranges_len self'))%Z ->
       Ranges_getitem self' k
       = Ranges_getitem (mkRanges [mkRange 0 1 1 None; mkRange 2 3 1 None; mkRange 4 5 1 None]) (k + 1)).
Proof.
  apply (Ranges_delitem_shifts
           (mkRanges [mkRange 0 1 1 None; mkRange 2 3 1 None; mkRange 4 5 1 None]) 1).
  unfold Ranges_len. simpl. lia.
Defined.

(** ** SeqRanges *)

(** X16. Assigning anything that is not a [SeqRange] into a
    [SeqRanges] is refused with the [ValueError] of the class test,
    whatever the index, in range or not. *)
Theorem SeqRanges_setitem_class (self : SeqRanges) (i : Z) (x : pyobj) :
  (forall sr, x <> PySeqRange sr) ->
  SeqRanges_setitem self i x = Raise (ValueError setitem_bad_class).
Proof. intros Hx. destruct x; try reflexivity. by destruct (Hx s). Qed.

Lemma SeqRanges_setitem_class_witness :
  SeqRanges_setitem (mkSeqRanges [] ∅) 5 (PyRange (mkRange 0 1 1 None))
  = Raise (ValueError setitem_bad_class).
Proof. apply SeqRanges_setitem_class. intros sr. discriminate. Defined.

(** X17. After [srs[i] = sr] the collection gives [sr] back at [i] and
    at every other position what it gave before; its length and its
    [seqlengths] are what they were. *)
Theorem SeqRanges_setitem_getitem (self self' : SeqRanges) (i : Z) (sr : SeqRange) :
  SeqRanges_setitem self i (PySeqRange sr) = Ok self' ->
  SeqRanges_getitem self' i = Ok sr /\
  SeqRanges_len self' = SeqRanges_len self /\
  seqlengths self' = seqlengths self /\
  (forall k, py_index (SeqRanges_len self) k <> py_index (SeqRanges_len self) i ->
             SeqRanges_getitem self' k = SeqRanges_getitem self k).
Proof.
  unfold SeqRanges_setitem. simpl. intros Hset.
  apply bind_Ok in Hset as (l' & Hset & [= <-]).
  apply list_set_get in Hset as (Hget & Hlen & Hother). done.
Qed.

Lemma SeqRanges_setitem_getitem_witness :
  SeqRanges_getitem (mkSeqRanges [mkSeqRange None (Some "chr2") None None] {[ "chr1" := 100%Z ]}) 0
  = Ok (mkSeqRange None (Some "chr2") None None) /\
  SeqRanges_len (mkSeqRanges [mkSeqRange None (Some "chr2") None None] {[ "chr1" := 100%Z ]})
  = SeqRanges_len (mkSeqRanges [SeqRange_new] {[ "chr1" := 100%Z ]}) /\
  seqlengths (mkSeqRanges [mkSeqRange None (Some "chr2") None None] {[ "chr1" := 100%Z ]})
  = seqlengths (mkSeqRanges [SeqRange_new] {[ "chr1" := 100%Z ]}) /\
  (forall k, py_index 1 k <> py_index 1 0 ->
     SeqRanges_getitem (mkSeqRanges [mkSeqRange None (Some "chr2") None None] {[ "chr1" := 100%Z ]}) k
     = SeqRanges_getitem (mkSeqRanges [SeqRange_new] {[ "chr1" := 100%Z ]}) k).
Proof.
  apply (SeqRanges_setitem_getitem (mkSeqRanges [SeqRange_new] {[ "chr1" := 100%Z ]}) _ 0
           (mkSeqRange None (Some "chr2") None None)).
  reflexivity.
Defined.

(** X18. [srs.append(sr)] with a single [SeqRange] puts it last: it is
    entry [-1] afterwards, the entries before it and [seqlengths] are
    untouched, and the length has grown by one. *)
Theorem SeqRanges_append_one (self : SeqRanges) (sr : SeqRange) :
  exists self' : SeqRanges,
    SeqRanges_append self (PySeqRange sr) = Ok self' /\
    SeqRanges_ranges self' = SeqRanges_ranges self ++ [sr] /\
    SeqRanges_len self' = S (SeqRanges_len self) /\
    SeqRanges_getitem self' (-1) = Ok sr /\
    seqlengths self' = seqlengths self.
Proof.
  eexists. split; [reflexivity|]. simpl.
  unfold SeqRanges_len, SeqRanges_getitem. simpl.
  repeat split.
  - rewrite length_app. simpl. lia.
  - apply list_getitem_Ok. exists (length (SeqRanges_ranges self)). split.
    + apply py_index_Ok. right. rewrite length_app. simpl. split; [lia|]. lia.
    + by rewrite lookup_app_r, Nat.sub_diag.
Qed.

Lemma foldl_append_SeqRange (l : list SeqRange) (acc : list SeqRange) :
  foldl (fun _ranges seqrange =>
           match seqrange with
           | PySeqRange sr => _ranges ++ [sr]
           | _ => _ranges
           end) acc (map PySeqRange l) = acc ++ l.
Proof.
  revert acc. induction l as [|sr l IH]; intros acc; simpl.
  - by rewrite app_nil_r.
  - rewrite IH. by rewrite <- app_assoc.
Qed.

Lemma class_ok_SeqRange (l : list SeqRange) :
  forallb id (map (fun x => String.eqb (class_name x) "SeqRange") (map PySeqRange l)) = true.
Proof. induction l as [|sr l IH]; simpl; done. Qed.

(** X19. [srs.append([sr1, ..., srk])] with a list of [SeqRange]
    entries adds them in the order of the list and leaves [seqlengths]
    alone; it comes to the same as appending them one at a time. *)
Theorem SeqRanges_append_list (self : SeqRanges) (l : list SeqRange) :
  SeqRanges_append self (PyList (map PySeqRange l))
  = Ok (mkSeqRanges (SeqRanges_ranges self ++ l) (seqlengths self)) /\
  SeqRanges_append self (PyList (map PySeqRange l))
  = foldl (fun acc sr => let* c := acc in SeqRanges_append c (PySeqRange sr)) (Ok self) l.
Proof.
  assert (Hlist : SeqRanges_append self (PyList (map PySeqRange l))
                  = Ok (mkSeqRanges (SeqRanges_ranges self ++ l) (seqlengths self))).
  { unfold SeqRanges_append. simpl.
    by rewrite class_ok_SeqRange, foldl_append_SeqRange. }
  split; [done|]. rewrite Hlist. clear Hlist.
  revert self. induction l as [|sr l IH]; intros self.
  - simpl. rewrite app_nil_r. by destruct self.
  - cbn [foldl].
    change (let* c := Ok self in SeqRanges_append c (PySeqRange sr))
      with (Ok (mkSeqRanges (SeqRanges_ranges self ++ [sr]) (seqlengths self))).
    rewrite <- IH. simpl. by rewrite <- app_assoc.
Qed.

(** X20. A list with one element that is not a [SeqRange] is refused
    as a whole with a [ValueError], wherever the element stands; and an
    argument that is neither a [SeqRange], a [SeqRanges] nor a list is
    refused with the [ValueError] that names the three classes. *)
Theorem SeqRanges_append_refused (self : SeqRanges) :
  (forall (l : list pyobj) (x : pyobj),
     x ∈ l -> (forall sr, x <> PySeqRange sr) ->
     SeqRanges_append self (PyList l) = Raise (ValueError append_bad_list)) /\
  (forall x : pyobj,
     (forall sr, x <> PySeqRange sr) -> (forall c, x <> PySeqRanges c) ->
     (forall l, x <> PyList l) ->
     SeqRanges_append self x = Raise (ValueError append_bad_class)).
Proof.
  split.
  - intros l x Hx Hclass. unfold SeqRanges_append. simpl.
    replace (forallb id _) with false; [done|].
    symmetry. apply not_true_iff_false. rewrite forallb_forall.
    intros Hall. specialize (Hall (String.eqb (class_name x) "SeqRange")).
    assert (Hname : String.eqb (class_name x) "SeqRange" = false).
    { destruct x; try reflexivity. by destruct (Hclass s). }
    rewrite Hname in Hall. simpl in Hall.
    assert (false = true); [|done]. apply Hall.
    apply in_map_iff. exists x. split; [done|]. by apply list_elem_of_In.
  - intros x H1 H2 H3. destruct x; try reflexivity.
    + by destruct (H1 s).
    + by destruct (H2 c).
    + by destruct (H3 l).
Qed.

Lemma SeqRanges_append_refused_witness :
  SeqRanges_append (mkSeqRanges [] ∅) (PyList [PySeqRange SeqRange_new; PyStr "chr1"])
  = Raise (ValueError append_bad_list) /\
  SeqRanges_append (mkSeqRanges [] ∅) (PyRange (mkRange 0 1 1 None))
  = Raise (ValueError append_bad_class).
Proof.
  destruct (SeqRanges_append_refused (mkSeqRanges [] ∅)) as [Hlist Hclass].
  split.
  - apply (Hlist _ (PyStr "chr1")); [right; left | discriminate].
  - apply Hclass; discriminate.
Defined.

(** X21. The property [strand] of a [SeqRanges] gives the empty list
    on an empty collection and ends in [AttributeError] on every
    other: it asks each entry's range for a strand. *)
Theorem SeqRanges_strand_result (self : SeqRanges) :
  SeqRanges_strand self =
  match SeqRanges_ranges self with
  | [] => Ok []
  | _ :: _ => Raise AttributeError
  end.
Proof.
  unfold SeqRanges_strand, SeqRanges_attr.
  destruct (SeqRanges_ranges self) as [|sr l]; simpl; [done|].
  unfold getattr. destruct (range sr); reflexivity.
Qed.

Lemma comprehension_Ok {A B : Type} (f : A -> result B) (xs : list A) (ys : list B) :
  comprehension f xs = Ok ys <-> Forall2 (fun x y => f x = Ok y) xs ys.
Proof.
  revert ys. induction xs as [|x xs IH]; intros ys; simpl.
  - split; [intros [= <-]; constructor | intros Hys].
    by apply Forall2_nil_inv_l in Hys as ->.
  - split.
    + intros Hc. apply bind_Ok in Hc as (y & Hy & Hc).
      apply bind_Ok in Hc as (ys' & Hys & [= <-]).
      constructor; [done | by apply IH].
    + intros Hys. apply Forall2_cons_inv_l in Hys as (y & ys' & Hy & Hys & ->).
      rewrite Hy. simpl. apply IH in Hys. by rewrite Hys.
Qed.

(** X22. The properties [start], [end] and [width] of a [SeqRanges]
    whose entries each own a range give the starts, ends and widths of
    those ranges, one per entry and in the order of the entries. *)
Theorem SeqRanges_read_through (self : SeqRanges) (rs : list Range) :
  map range (SeqRanges_ranges self) = map Some rs ->
  SeqRanges_start self = Ok (map (fun r => VInt (start r)) rs) /\
  SeqRanges_end self = Ok (map (fun r => VInt (end_ r)) rs) /\
  SeqRanges_width self = Ok (map (fun r => VInt (width r)) rs).
Proof.
  intros Hown.
  assert (Hattr : forall attr g,
            (forall r, Range_getattr r attr = Ok (VInt (g r))) ->
            SeqRanges_attr attr self = Ok (map (fun r => VInt (g r)) rs)).
  { intros attr g Hg. unfold SeqRanges_attr. apply comprehension_Ok.
    revert rs Hown. induction (SeqRanges_ranges self) as [|sr l IH];
      intros [|r rs] Hown; try discriminate; simpl; constructor.
    - injection Hown as -> _. simpl. apply Hg.
    - apply IH. by injection Hown. }
  repeat split; apply Hattr; reflexivity.
Qed.

Lemma SeqRanges_read_through_witness :
  SeqRanges_start (mkSeqRanges [mkSeqRange (Some (mkRange 3 8 5 None)) (Some "chr1") None None] ∅)
  = Ok [VInt 3] /\
  SeqRanges_end (mkSeqRanges [mkSeqRange (Some (mkRange 3 8 5 None)) (Some "chr1") None None] ∅)
  = Ok [VInt 8] /\
  SeqRanges_width (mkSeqRanges [mkSeqRange (Some (mkRange 3 8 5 None)) (Some "chr1") None None] ∅)
  = Ok [VInt 5].
Proof.
  apply (SeqRanges_read_through
           (mkSeqRanges [mkSeqRange (Some (mkRange 3 8 5 None)) (Some "chr1") None None] ∅)
           [mkRange 3 8 5 None]).
  reflexivity.
Defined.

(** ** SeqRange.getseq *)

Lemma slice_bound_nonneg (n : nat) (i : Z) :
  (0 <= i)%Z -> slice_bound n i = Nat.min n (Z.to_nat i).
Proof.
  intros Hi. unfold slice_bound.
  destruct (Z.ltb_spec i 0); [lia|].
  destruct (Z.ltb_spec i 0); [lia|].
  destruct (Z.ltb_spec (Z.of_nat n) i); lia.
Qed.

(** A slice with bounds [0 <= a <= b] takes [b - a] elements from
    position [a] on, or as many as there are. *)
Lemma py_slice_nonneg {A : Type} (l : list A) (a b : Z) :
  (0 <= a <= b)%Z ->
  py_slice l a b = take (Z.to_nat (b - a)) (drop (Z.to_nat a) l).
Proof.
  intros Hab. unfold py_slice. rewrite !slice_bound_nonneg by lia.
  destruct (decide (Z.to_nat a <= length l)) as [Ha|Ha].
  - rewrite (Nat.min_r _ (Z.to_nat a)) by lia.
    destruct (decide (Z.to_nat b <= length l)) as [Hb|Hb].
    + rewrite Nat.min_r by lia. f_equal. lia.
    + rewrite Nat.min_l by lia.
      rewrite !take_ge; [done | |]; rewrite length_drop; lia.
  - rewrite !(drop_ge l) by lia. by rewrite !take_nil.
Qed.

(** X23. For an instance whose range has [0 <= start <= end], [getseq]
    answers with the [end - start] elements from position [start] on,
    cut short without an error where the sequence ends; when the range
    lies within the sequence that is exactly [end - start] elements,
    [seq[start]] to [seq[end - 1]], without [seq[end]]. *)
Theorem SeqRange_getseq_half_open {A : Type} (self : SeqRange) (r : Range)
    (seq : list A) :
  range self = Some r -> (0 <= start r <= end_ r)%Z ->
  exists out : list A,
    SeqRange_getseq self seq = Ok out /\
    out = take (Z.to_nat (end_ r - start r)) (drop (Z.to_nat (start r)) seq) /\
    ((end_ r <= Z.of_nat (length seq))%Z ->
     length out = Z.to_nat (end_ r - start r) /\
     forall k, k < length out -> out !! k = seq !! (Z.to_nat (start r) + k)).
Proof.
  intros Hr Hbounds. unfold SeqRange_getseq. rewrite Hr. simpl.
  eexists. split; [reflexivity|]. rewrite py_slice_nonneg by done.
  split; [done|]. intros Hend.
  assert (Hlen : length (take (Z.to_nat (end_ r - start r))
                           (drop (Z.to_nat (start r)) seq))
                 = Z.to_nat (end_ r - start r)).
  { rewrite length_take, length_drop. lia. }
  split; [done|]. intros k Hk. rewrite Hlen in Hk.
  rewrite lookup_take_lt by lia. by rewrite lookup_drop.
Qed.

Lemma SeqRange_getseq_half_open_witness :
  exists out : list nat,
    SeqRange_getseq (mkSeqRange (Some (mkRange 1 3 2 None)) (Some "chr1") None None)
      [10; 11; 12; 13; 14] = Ok out /\
    out = take (Z.to_nat (3 - 1)) (drop (Z.to_nat 1) [10; 11; 12; 13; 14]) /\
    ((3 <= Z.of_nat 5)%Z ->
     length out = Z.to_nat (3 - 1) /\
     forall k, k < length out -> out !! k = [10; 11; 12; 13; 14] !! (Z.to_nat 1 + k)).
Proof.
  apply (SeqRange_getseq_half_open
           (mkSeqRange (Some (mkRange 1 3 2 None)) (Some "chr1") None None)
           (mkRange 1 3 2 None) [10; 11; 12; 13; 14]).
  - reflexivity.
  - simpl. lia.
Defined.



(** X25. A successful [SeqRanges] construction has no entries: with
    lists that are not empty the first [SeqRange] to be built ends the
    constructor in an exception. *)
Theorem SeqRanges_init_only_empty (ranges : option (list Range))
    (strands seqnames : option (list string)) (seqlengths : gmap string Z)
    (data_list : option (list (gmap string Z))) (c : SeqRanges) :
  SeqRanges_init ranges strands seqnames seqlengths data_list = Ok c ->
  SeqRanges_len c = 0 /\ c = mkSeqRanges [] seqlengths.
Proof.
  intros Hinit. pose proof (SeqRanges_init_Ok_empty _ _ _ _ _ _ Hinit) as Hempty.
  unfold SeqRanges_len. rewrite Hempty. split; [done|].
  unfold SeqRanges_init in Hinit.
  apply bind_Ok in Hinit as (arg_len & _ & Hinit).
  apply bind_Ok in Hinit as (entries & _ & [= <-]).
  simpl in Hempty. by rewrite Hempty.
Qed.

Lemma SeqRanges_init_only_empty_witness :
  SeqRanges_len (mkSeqRanges [] {[ "chr1" := 100%Z ]}) = 0 /\
  mkSeqRanges [] {[ "chr1" := 100%Z ]} = mkSeqRanges [] {[ "chr1" := 100%Z ]}.
Proof.
  apply (SeqRanges_init_only_empty (Some []) (Some []) (Some [])
           {[ "chr1" := 100%Z ]} None).
  apply SeqRanges_init_empty.
Defined.

(** ** Textual representations *)

Lemma length_append (s1 s2 : string) :
  String.length (s1 +:+ s2) = String.length s1 + String.length s2.
Proof. induction s1 as [|c s1 IH]; simpl; [done | by rewrite IH]. Qed.

Lemma length_str_mul_space (n : nat) : String.length (str_mul " " n) = n.
Proof. induction n as [|n IH]; simpl; [done | by f_equal]. Qed.

Lemma for_in_collect {X A : Type} (g : X -> result A) (xs : list X) (acc : list A)
    (ys : list A) :
  Forall2 (fun x y => g x = Ok y) xs ys ->
  for_in (fun x acc => let* y := g x in Ok (acc ++ [y])) xs acc = Ok (acc ++ ys).
Proof.
  intros Hys. revert acc. induction Hys as [|x y xs ys Hy _ IH]; intros acc; simpl.
  - by rewrite app_nil_r.
  - rewrite Hy. simpl. rewrite IH. by rewrite <- app_assoc.
Qed.

Lemma for_in_cons {X S : Type} (body : X -> S -> result S) (x : X) (xs : list X)
    (st : S) :
  for_in body (x :: xs) st = let* st' := body x st in for_in body xs st'.
Proof. reflexivity. Qed.

Lemma widen_Ok (n : nat) (this_row : list string) (max_col_width : list nat) :
  length this_row = n -> length max_col_width = n ->
  widen (range_ n) this_row max_col_width
  = Ok (zip_with Nat.max (map String.length this_row) max_col_width).
Proof.
  intros Hlen <-. unfold widen, range_. apply comprehension_Ok.
  apply Forall2_same_length_lookup_2.
  - rewrite length_seq, length_zip_with, length_map. lia.
  - intros i j y Hj Hy. apply lookup_seq in Hj as [-> Hi]. simpl in *.
    apply lookup_zip_with_Some in Hy as (c & m & -> & Hc & Hm).
    change (map String.length this_row) with (String.length <$> this_row) in Hc.
    rewrite list_lookup_fmap in Hc.
    destruct (this_row !! i) as [col|] eqn:Hcol; [|done].
    injection Hc as <-. by rewrite Hm.
Qed.

Lemma fits_widen (this_row row : list string) (max_col_width : list nat) :
  length this_row = length max_col_width ->
  fits (zip_with Nat.max (map String.length this_row) max_col_width) this_row /\
  (fits max_col_width row ->
   fits (zip_with Nat.max (map String.length this_row) max_col_width) row).
Proof.
  intros Hlen. split.
  - apply Forall2_same_length_lookup_2.
    + rewrite length_zip_with, length_map. lia.
    + intros i col y Hcol Hy.
      apply lookup_zip_with_Some in Hy as (c & m & -> & Hc & Hm).
      change (map String.length this_row) with (String.length <$> this_row) in Hc.
      rewrite list_lookup_fmap, Hcol in Hc. injection Hc as <-. lia.
  - intros Hfit. apply Forall2_same_length_lookup_2.
    + rewrite length_zip_with, length_map. apply Forall2_length in Hfit. lia.
    + intros i col y Hcol Hy.
      apply lookup_zip_with_Some in Hy as (c & m & -> & Hc & Hm).
      pose proof (Forall2_lookup_lr _ _ _ _ _ _ Hfit Hcol Hm). simpl in *. lia.
Qed.

(** From a column after the first on, each column adds a space and
    its width to the line. *)
Lemma format_row_from (max_col_width : list nat) (row : list string) :
  forall (k : nat) (acc : string),
    0 < k ->
    fits (drop k max_col_width) row ->
    exists line,
      for_in (fun '(i, col) tmp_line =>
                let tmp_line := if Nat.ltb 0 i then tmp_line +:+ " " else tmp_line in
                let* m := subscript (Some max_col_width) i in
                Ok (tmp_line +:+ (str_mul " " (m - String.length col) +:+ col)))
        (zip (seq k (length row)) row) acc = Ok line /\
      String.length line
      = String.length acc + sum_list (drop k max_col_width) + length row.
Proof.
  induction row as [|col row IH]; intros k acc Hk Hfit.
  - apply Forall2_nil_inv_l in Hfit. rewrite Hfit. simpl.
    exists acc. split; [done | lia].
  - apply Forall2_cons_inv_l in Hfit as (m & todo & Hm & Hfit & Hdrop).
    assert (Hlook : max_col_width !! k = Some m).
    { rewrite <- (Nat.add_0_r k), <- lookup_drop, Hdrop. done. }
    assert (Hrest : drop (S k) max_col_width = todo).
    { replace (S k) with (k + 1) by lia. by rewrite <- drop_drop, Hdrop. }
    cbn [length seq zip_with]. rewrite for_in_cons. cbv beta iota zeta.
    destruct k as [|k']; [lia|].
    change (Nat.ltb 0 (S k')) with true. cbv iota.
    unfold subscript at 1. rewrite Hlook. cbn [bind].
    destruct (IH (S (S k'))
                ((acc +:+ " ") +:+ (str_mul " " (m - String.length col) +:+ col)))
      as (line & Hline & Hlen); [lia | by rewrite Hrest |].
    exists line. split; [done|].
    rewrite Hlen, Hrest, Hdrop, !length_append, length_str_mul_space. simpl. lia.
Qed.

(** A row that fits gives a line as long as the widths and the spaces
    between them. *)
Lemma format_row_length (max_col_width : list nat) (row : list string) :
  fits max_col_width row -> row <> [] ->
  exists line,
    format_row max_col_width row = Ok line /\
    String.length line = sum_list max_col_width + (length row - 1).
Proof.
  intros Hfit Hne. destruct row as [|col row]; [done|].
  pose proof Hfit as Hfit'.
  apply Forall2_cons_inv_l in Hfit' as (m & todo & Hm & Hfit' & ->).
  unfold format_row, enumerate. cbn [length seq zip_with].
  rewrite for_in_cons. cbv beta iota zeta.
  change (Nat.ltb 0 0) with false. cbv iota.
  unfold subscript at 1. cbn [lookup list_lookup bind].
  destruct (format_row_from (m :: todo) row 1
              ("" +:+ (str_mul " " (m - String.length col) +:+ col)))
    as (line & Hline & Hlen); [lia | done |].
  exists line. split; [done|].
  rewrite Hlen, !length_append, length_str_mul_space. simpl.
  rewrite drop_0. lia.
Qed.

Lemma format_rows_Ok (max_col_width : list nat) (rows : list (list string))
    (lines : list string) :
  max_col_width <> [] ->
  Forall (fits max_col_width) rows ->
  exists table,
    format_rows max_col_width rows lines = Ok (lines ++ table) /\
    length table = length rows /\
    Forall (fun line => String.length line
                        = sum_list max_col_width + (length max_col_width - 1)) table.
Proof.
  intros Hne Hfit.
  assert (Hlines : exists table,
             Forall2 (fun row line => format_row max_col_width row = Ok line) rows table /\
             Forall (fun line => String.length line
                        = sum_list max_col_width + (length max_col_width - 1)) table).
  { induction Hfit as [|row rows Hrow _ (table & Htable & Hlen)].
    - exists []. split; constructor.
    - destruct (format_row_length max_col_width row Hrow) as (line & Hline & Hl).
      { intros ->. apply Forall2_nil_inv_l in Hrow. done. }
      exists (line :: table). split; constructor; try done.
      rewrite Hl. by rewrite (Forall2_length _ _ _ Hrow). }
  destruct Hlines as (table & Htable & Hlen).
  exists table. split; [|split; [|done]].
  - unfold format_rows. by apply for_in_collect.
  - symmetry. by apply Forall2_length in Htable.
Qed.

Lemma Ranges_repr_rows (rs : list Range) :
  forall (max_col_width : list nat) (rows : list (list string)),
    length max_col_width = 4 ->
    Forall (fits max_col_width) rows ->
    exists max_col_width',
      for_in (fun rng '(max_col_width, rows) =>
                let this_row :=
                  map py_str [VInt (start rng); VInt (end_ rng); VInt (width rng);
                              match name rng with Some n => VStr n | None => VNone end] in
                let* max_col_width := widen (range_ 4) this_row max_col_width in
                Ok (max_col_width, rows ++ [this_row])) rs (max_col_width, rows)
      = Ok (max_col_width', rows ++ map Ranges_row rs) /\
      max_col_width'
      = foldl (fun mw row => zip_with Nat.max (map String.length row) mw)
          max_col_width (map Ranges_row rs) /\
      length max_col_width' = 4 /\
      Forall (fits max_col_width') (rows ++ map Ranges_row rs).
Proof.
  induction rs as [|rng rs IH]; intros max_col_width rows Hlen Hfit.
  - exists max_col_width. simpl. by rewrite app_nil_r.
  - rewrite for_in_cons. cbv beta iota zeta. fold (Ranges_row rng).
    rewrite (widen_Ok 4) by done. cbn [bind].
    destruct (fits_widen (Ranges_row rng) (Ranges_row rng) max_col_width)
      as [Hnew _]; [by rewrite Hlen|].
    destruct (IH (zip_with Nat.max (map String.length (Ranges_row rng)) max_col_width)
                (rows ++ [Ranges_row rng])) as (mw & Hloop & Hfold & Hmw & Hall).
    + rewrite length_zip_with, length_map, Hlen. done.
    + apply Forall_app. split; [|by repeat constructor].
      eapply Forall_impl; [exact Hfit|]. intros row Hrow.
      by apply (fits_widen (Ranges_row rng) row max_col_width).
    + exists mw. rewrite <- app_assoc in Hloop, Hall. done.
Qed.

Lemma append_assoc (a b c : string) : (a +:+ b) +:+ c = a +:+ (b +:+ c).
Proof.
  induction a as [|x a IH]; [done|].
  change (String x ((a +:+ b) +:+ c) = String x (a +:+ (b +:+ c))). by f_equal.
Qed.

Lemma append_nil_r (a : string) : a +:+ "" = a.
Proof.
  induction a as [|x a IH]; [done|].
  change (String x (a +:+ "") = String x a). by f_equal.
Qed.

(** Joining with a space is putting a space before every column but
    the first. *)
Lemma concat_space (x : string) (xs : list string) :
  String.concat " " (x :: xs)
  = x +:+ foldr (fun y rest => (" " +:+ y) +:+ rest) "" xs.
Proof.
  revert x. induction xs as [|y ys IH]; intros x.
  - simpl. by rewrite append_nil_r.
  - change (String.concat " " (x :: y :: ys))
      with (x +:+ " " +:+ String.concat " " (y :: ys)).
    rewrite IH. cbn [foldr]. by rewrite !append_assoc.
Qed.

(** From a column after the first on, the loop of [format_row] adds a
    space and the right-aligned column, column after column. *)
Lemma format_row_from_exact (max_col_width : list nat) (row : list string) :
  forall (k : nat) (acc : string),
    0 < k ->
    length row = length (drop k max_col_width) ->
    for_in (fun '(i, col) tmp_line =>
              let tmp_line := if Nat.ltb 0 i then tmp_line +:+ " " else tmp_line in
              let* m := subscript (Some max_col_width) i in
              Ok (tmp_line +:+ (str_mul " " (m - String.length col) +:+ col)))
      (zip (seq k (length row)) row) acc
    = Ok (acc +:+ foldr (fun y rest => (" " +:+ y) +:+ rest) ""
                    (zip_with right_align (drop k max_col_width) row)).
Proof.
  induction row as [|col row IH]; intros k acc Hk Hlen.
  - simpl. destruct (drop k max_col_width); simpl; by rewrite append_nil_r.
  - destruct (drop k max_col_width) as [|m todo] eqn:Hdrop; [done|].
    assert (Hlook : max_col_width !! k = Some m).
    { rewrite <- (Nat.add_0_r k), <- lookup_drop, Hdrop. done. }
    assert (Hrest : drop (S k) max_col_width = todo).
    { replace (S k) with (k + 1) by lia. by rewrite <- drop_drop, Hdrop. }
    cbn [length seq zip_with]. rewrite for_in_cons. cbv beta iota zeta.
    destruct k as [|k']; [lia|].
    change (Nat.ltb 0 (S k')) with true. cbv iota.
    unfold subscript at 1. rewrite Hlook. cbn [bind].
    rewrite IH; [| lia | rewrite Hrest; simpl in Hlen; lia].
    rewrite Hrest. cbn [foldr]. unfold right_align at 2.
    by rewrite !append_assoc.
Qed.

(** A row with as many columns as there are widths gives the line of
    its right-aligned columns. *)
Lemma format_row_exact (max_col_width : list nat) (row : list string) :
  length row = length max_col_width -> row <> [] ->
  format_row max_col_width row = Ok (aligned_line max_col_width row).
Proof.
  intros Hlen Hne. destruct row as [|col row]; [done|].
  destruct max_col_width as [|m todo]; [done|].
  unfold format_row, enumerate, aligned_line. cbn [length seq zip_with].
  rewrite for_in_cons. cbv beta iota zeta.
  change (Nat.ltb 0 0) with false. cbv iota.
  unfold subscript at 1. cbn [lookup list_lookup bind].
  rewrite (format_row_from_exact (m :: todo) row 1);
    [| lia | cbn [length] in Hlen; cbn [drop]; rewrite drop_0; lia].
  rewrite concat_space. simpl drop. rewrite drop_0. unfold right_align at 3.
  by rewrite append_assoc.
Qed.

Lemma format_rows_exact (max_col_width : list nat) (rows : list (list string))
    (lines : list string) :
  max_col_width <> [] ->
  Forall (fun row => length row = length max_col_width) rows ->
  format_rows max_col_width rows lines
  = Ok (lines ++ map (aligned_line max_col_width) rows).
Proof.
  intros Hne Hrows. unfold format_rows. apply for_in_collect.
  induction Hrows as [|row rows Hrow _ IH]; simpl; constructor; [|done].
  apply format_row_exact; [done|]. intros ->. by destruct max_col_width.
Qed.

(** The widths the first loop arrives at are the lengths of the
    longest entry of each column. *)
Lemma fold_column_widths (rows : list (list string)) :
  forall max_col_width : list nat,
    Forall (fun row => length row = length max_col_width) rows ->
    foldl (fun mw row => zip_with Nat.max (map String.length row) mw)
      max_col_width rows
    = map (fun j => Nat.max (default 0 (max_col_width !! j))
                      (max_list (map (fun row => String.length (default "" (row !! j)))
                                   rows)))
        (seq 0 (length max_col_width)).
Proof.
  induction rows as [|row rows IH]; intros mw Hrows.
  - simpl. apply list_eq. intros j.
    change (map ?h ?xs) with (h <$> xs). rewrite list_lookup_fmap.
    destruct (decide (j < length mw)) as [Hj|Hj].
    + rewrite lookup_seq_lt by done. simpl.
      destruct (lookup_lt_is_Some_2 mw j Hj) as [m ->]. simpl. f_equal. lia.
    + rewrite lookup_seq_ge by lia. by rewrite lookup_ge_None_2 by lia.
  - apply Forall_cons in Hrows as [Hrow Hrows]. cbn [foldl].
    rewrite IH.
    2: { eapply Forall_impl; [exact Hrows|]. intros r Hr. simpl in *.
         rewrite length_zip_with, length_map. lia. }
    rewrite length_zip_with, length_map, Hrow, Nat.min_id.
    apply list_eq. intros j.
    change (map ?h ?xs) with (h <$> xs). rewrite !list_lookup_fmap.
    destruct (decide (j < length mw)) as [Hj|Hj].
    + rewrite lookup_seq_lt by done. simpl. f_equal.
      rewrite lookup_zip_with, list_lookup_fmap.
      destruct (lookup_lt_is_Some_2 mw j Hj) as [m ->].
      destruct (lookup_lt_is_Some_2 row j) as [c ->]; [lia|]. simpl. lia.
    + by rewrite lookup_seq_ge by lia.
Qed.

Lemma Ranges_row_columns (r : Range) :
  Ranges_row r
  = [pretty (start r); pretty (end_ r); pretty (width r); default "None" (name r)].
Proof. unfold Ranges_row. simpl. by destruct (name r). Qed.

(** X26. Under Python 2 the summary of a [Ranges] is, line by line: the
    title with the true number of ranges; the header; and one line for
    each of the first 10 ranges, with its start, end, width and name
    ([None] when it has none).  In the header and in the range lines
    every column is padded on the left to the length of the longest
    entry of that column, and the columns are separated by one space.
    So there are [2 + min(n, 10)] lines, and all but the title have one
    length. *)
Theorem Ranges_repr_table (self : Ranges) :
  let table :=
    ["start"; "end"; "width"; "name"]
      :: map (fun r => [pretty (start r); pretty (end_ r); pretty (width r);
                        default "None" (name r)])
           (take 10 (Ranges_ranges self)) in
  let widths := column_widths table 4 in
  Ranges_repr self
  = Ok (String.concat newline
          (("Ranges with " +:+ pretty (Z.of_nat (Ranges_len self)) +:+ " ranges")
             :: map (aligned_line widths) table)) /\
  length table = 1 + Nat.min (Ranges_len self) 10 /\
  exists w : nat,
    Forall (fun row => String.length (aligned_line widths row) = w) table.
Proof.
  intros table widths.
  assert (Htable : table
            = ["start"; "end"; "width"; "name"]
                :: map Ranges_row (take NUM_RANGES_DISPLAY (Ranges_ranges self))).
  { unfold table. f_equal. apply map_ext. intros r. by rewrite Ranges_row_columns. }
  clearbody table.
  destruct (Ranges_repr_rows (take NUM_RANGES_DISPLAY (Ranges_ranges self))
              (map String.length ["start"; "end"; "width"; "name"])
              [["start"; "end"; "width"; "name"]])
    as (mw & Hloop & Hfold & Hmw & Hfit).
  { done. }
  { repeat constructor. }
  change ([["start"; "end"; "width"; "name"]] ++ ?l)
    with (["start"; "end"; "width"; "name"] :: l) in Hloop, Hfit.
  rewrite <- Htable in Hloop, Hfit.
  assert (Hrows : Forall (fun row => length row = 4) table).
  { eapply Forall_impl; [exact Hfit|]. intros row Hrow.
    apply Forall2_length in Hrow. by rewrite Hrow. }
  assert (Hwidths : mw = widths).
  { rewrite Hfold, fold_column_widths.
    2: { rewrite Htable in Hrows. apply Forall_cons in Hrows as [_ Hrows]. done. }
    unfold widths, column_widths. rewrite Htable.
    apply map_ext_in. intros j Hj. apply in_seq in Hj.
    simpl in Hj. destruct j as [|[|[|[|j]]]]; try lia; reflexivity. }
  rewrite Hwidths in Hloop, Hfit.
  assert (Hne : widths <> []).
  { rewrite <- Hwidths. intros ->. done. }
  split; [|split].
  - unfold Ranges_repr, Ranges_repr_lines. cbv zeta.
    change (length ["start"; "end"; "width"; "name"]) with 4.
    cbv zeta in Hloop. rewrite Hloop. cbn [bind].
    rewrite format_rows_exact; [done | done |].
    eapply Forall_impl; [exact Hrows|]. intros row Hrow. simpl in Hrow.
    by rewrite Hrow, <- Hwidths, Hmw.
  - rewrite Htable. cbn [length]. rewrite length_map, length_take.
    unfold Ranges_len, NUM_RANGES_DISPLAY. lia.
  - destruct (format_rows_Ok widths table []) as (lines & Hlines & _ & Hlen);
      [done | done |].
    rewrite format_rows_exact in Hlines; [| done |].
    2: { eapply Forall_impl; [exact Hrows|]. intros row Hrow. simpl in Hrow.
         by rewrite Hrow, <- Hwidths, Hmw. }
    injection Hlines as <-. exists (sum_list widths + (length widths - 1)).
    by apply Forall_fmap in Hlen.
Qed.

(** X27. [repr] of a [SeqRange] never gives a text: whatever the
    instance holds, formatting reads the strand and ends in
    [AttributeError]. *)
Theorem SeqRange_repr_raises (self : SeqRange) :
  SeqRange_repr self = Raise AttributeError.
Proof.
  unfold SeqRange_repr. destruct (seqname self); simpl; [|done].
  by rewrite SeqRange_strand_raises.
Qed.

(** X28. The summary of a [SeqRanges] is the title and the header for
    an empty collection, and ends in [AttributeError] for every other:
    the first row already reads a strand. *)
Theorem SeqRanges_repr_result (self : SeqRanges) :
  SeqRanges_repr self =
  match SeqRanges_ranges self with
  | [] => Ok ("SeqRanges with 0 ranges" +:+ newline +:+ "seqnames ranges strand")
  | _ :: _ => Raise AttributeError
  end.
Proof.
  unfold SeqRanges_repr, SeqRanges_repr_lines, SeqRanges_len.
  destruct (SeqRanges_ranges self) as [|sr l]; [reflexivity|].
  cbv zeta. change (take NUM_RANGES_DISPLAY (sr :: l)) with (sr :: take 9 l).
  rewrite for_in_cons. cbv beta iota.
  destruct (range sr); simpl; [|done].
  destruct (seqname sr); simpl; [|done].
  by rewrite SeqRange_strand_raises.
Qed.

Lemma append_inj_l (p s s' : string) : p +:+ s = p +:+ s' -> s = s'.
Proof. induction p as [|c p IH]; simpl; [done|]. intros [= H]. by apply IH. Qed.

Lemma append_avoids_inj (c : Ascii.ascii) (a a' r r' : string) :
  avoids c a -> avoids c a' ->
  a +:+ String c r = a' +:+ String c r' -> a = a' /\ r = r'.
Proof.
  revert a'. induction a as [|x a IH]; intros [|x' a'] Ha Ha'; simpl in *.
  - by intros [= ->].
  - intros [= -> _]. by destruct Ha' as [? _].
  - intros [= -> _]. by destruct Ha as [? _].
  - intros [= -> Heq]. destruct Ha as [_ Ha], Ha' as [_ Ha'].
    destruct (IH a' Ha Ha' Heq) as [-> ->]. done.
Qed.

Lemma pretty_N_go_avoids (c : Ascii.ascii) (x : N) (s : string) :
  (forall d, pretty_N_char d <> c) -> avoids c s -> avoids c (pretty_N_go x s).
Proof.
  intros Hc. revert s. induction (N.lt_wf_0 x) as [x _ IH]; intros s Hs.
  assert (x = 0 \/ 0 < x)%N as [->|Hpos] by lia.
  - by rewrite pretty_N_go_0.
  - rewrite pretty_N_go_step by done. apply IH.
    + by apply N.div_lt.
    + simpl. split; [apply Hc | done].
Qed.

(** The decimal text of an integer holds digits and the sign only. *)
Lemma pretty_Z_avoids (c : Ascii.ascii) (z : Z) :
  (forall d, pretty_N_char d <> c) -> c <> Ascii.ascii_of_nat 45 ->
  avoids c (pretty z).
Proof.
  intros Hc Hdash.
  assert (Hzero : avoids c "0").
  { simpl. split; [exact (Hc 0%N) | done]. }
  assert (Hpos : forall p : positive, avoids c (pretty p)).
  { intros p. unfold pretty, pretty_positive, pretty, pretty_N.
    case_decide; [done|]. by apply pretty_N_go_avoids. }
  destruct z as [|p|p]; simpl; [done | apply Hpos |].
  unfold pretty, pretty_Z. simpl. split; [by intros <- | apply Hpos].
Qed.

Lemma pretty_N_char_ne (c : Ascii.ascii) :
  c = Ascii.ascii_of_nat 44 \/ c = Ascii.ascii_of_nat 93 ->
  (forall d, pretty_N_char d <> c) /\ c <> Ascii.ascii_of_nat 45.
Proof.
  intros [-> | ->]; (split; [|discriminate]);
    intros d; unfold pretty_N_char; repeat case_match; discriminate.
Qed.

(** X29. Two ranges of one name, or both without a name, print alike
    exactly when they have the same start and the same end: the text
    gives the bounds back and tells nothing of the width. *)
Theorem Range_repr_bounds (a b : Range) :
  name a = name b ->
  Range_repr a = Range_repr b <-> start a = start b /\ end_ a = end_ b.
Proof.
  intros Hname. split.
  - unfold Range_repr. rewrite <- Hname. intros Heq.
    assert (Hbounds : pretty (start a) +:+ ", " +:+ pretty (end_ a) +:+ "]"
                      = pretty (start b) +:+ ", " +:+ pretty (end_ b) +:+ "]").
    { destruct (name a) as [n|].
      - apply (append_inj_l "Range '") in Heq.
        apply append_inj_l in Heq. by apply (append_inj_l "' over [") in Heq.
      - by apply (append_inj_l "Range over [") in Heq. }
    clear Heq.
    destruct (pretty_N_char_ne (Ascii.ascii_of_nat 44)) as [Hc1 Hd1]; [by left|].
    destruct (pretty_N_char_ne (Ascii.ascii_of_nat 93)) as [Hc2 Hd2]; [by right|].
    apply append_avoids_inj in Hbounds as [Hs Hrest];
      [| by apply pretty_Z_avoids..].
    injection Hrest as Hrest.
    apply append_avoids_inj in Hrest as [He _];
      [| by apply pretty_Z_avoids..].
    split; by apply (inj pretty).
  - intros [Hs He]. unfold Range_repr. by rewrite Hname, Hs, He.
Qed.

Lemma Range_repr_bounds_witness :
  Range_repr (mkRange 1 4 3 (Some "hit")) = Range_repr (mkRange 1 4 9 (Some "hit")) <->
  1%Z = 1%Z /\ 4%Z = 4%Z.
Proof.
  apply (Range_repr_bounds (mkRange 1 4 3 (Some "hit")) (mkRange 1 4 9 (Some "hit"))).
  reflexivity.
Defined.
